(** * oes-birger: the route table, the Kubernetes executor and the
      identity binding, embedded from the Go sources.

    Layout (one module per Go package):
    - [Tunnel]        internal/tunnel/tunnel.proto, the wire frames;
    - [Tunnelroute]   package tunnelroute, the table of connected routes;
    - [Agent]         app/agent/kubernetes.go, the Kubernetes executor;
    - [Serviceconfig] package serviceconfig, the later Kubernetes endpoint;
    - [Controller]    forwarder-controller main, agent-name extraction.
    The modules whose names end in [Facts] hold the proofs; [Samples]
    holds the concrete inputs the proofs are run on.

    Go values are modelled as the code has them: strings as [string],
    byte slices as [list byte], [map[string][]Route] as a [gmap] from
    names to lists, nil-able pointers as [option]. *)

From Stdlib Require Import ZArith Strings.Byte.
From stdpp Require Import base option list strings gmap.

Local Open Scope Z_scope.

(** A Go call either returns or raises a run-time panic (index out of
    range, nil dereference). A function declared [(T, error)] returns
    the pair as written in the source, with [None] for a nil error or a
    nil pointer. *)
Inductive outcome (A : Type) : Type :=
| Return (a : A)
| Panic (why : string).
Arguments Return {A} a.
Arguments Panic {A} why.

#[global] Instance byte_eq_dec : EqDecision byte := Byte.byte_eq_dec.

(* ================================================================== *)
(** * internal/tunnel/tunnel.proto *)
(* ================================================================== *)
Module Tunnel.

Record HttpHeader := {
  header_name : string;
  header_values : list string }.

Record OpenHTTPTunnelRequest := {
  req_id : string;
  req_name : string;
  req_type : string;
  req_method : string;
  req_URI : string;
  req_headers : list HttpHeader;
  req_body : list byte }.

Record HttpTunnelResponse := {
  resp_id : string;
  resp_status : Z;
  resp_headers : list HttpHeader;
  resp_contentLength : Z }.

Record HttpTunnelChunkedResponse := {
  chunk_id : string;
  chunk_body : list byte }.

Record Annotation := {
  annotation_name : string;
  annotation_value : string }.

Record EndpointHealth := {
  health_name : string;
  health_type : string;
  health_configured : bool;
  health_namespaces : list string;
  health_accountID : string;
  health_assumeRole : string;
  health_annotations : list Annotation }.

Record Hello := {
  hello_endpoints : list EndpointHealth;
  hello_version : string;
  hello_hostname : string;
  hello_clientCertificate : list byte;
  hello_agentInfo : list Annotation }.

(** [oneof controlType] *)
Inductive HttpTunnelControl :=
| OpenHTTPTunnelRequest_ (r : OpenHTTPTunnelRequest)
| CancelRequest_ (id : string)
| HttpTunnelResponse_ (r : HttpTunnelResponse)
| HttpTunnelChunkedResponse_ (c : HttpTunnelChunkedResponse).

(** [oneof event] *)
Inductive MessageWrapper :=
| PingRequest_ (ts : Z)
| PingResponse_ (ts echoedTs : Z)
| Hello_ (h : Hello)
| HttpTunnelControl_ (c : HttpTunnelControl).

End Tunnel.

(* ================================================================== *)
(** * package tunnelroute *)
(* ================================================================== *)
Module Tunnelroute.

(** [Endpoint], as logged by [Add] and carried in the statistics; the
    fields are those of [EndpointHealth] in the wire protocol. *)
Record Endpoint := {
  Name : string;
  Type_ : string;
  Configured : bool;
  Namespaces : list string;
  AccountID : string;
  AssumeRole : string;
  Annotations : list Tunnel.Annotation }.

(** [Search]: the fields the table reads, [ep.Name], [ep.EndpointType],
    [ep.EndpointName] and [ep.Session]. *)
Record Search := {
  SearchName : string;
  EndpointType : string;
  EndpointName : string;
  Session : string }.

(** The [Route] interface, as far as [Add], [Remove], [findService] and
    [Send] of the table use it. [route_eq_dec] is Go's [==] on interface
    values (same dynamic type and same pointer). [Close] returns
    nothing, so it only shows up as an effect below; [Send] returns a
    string and is recorded as an effect as well. *)
Class Route (R Message : Type) := {
  route_eq_dec :: EqDecision R;
  Send : R → Message → string;
  HasEndpoint : R → string → string → bool;
  GetSession : R → string;
  GetName : R → string;
  GetEndpoints : R → list Endpoint }.

(** Values handed to the structured logger. *)
Inductive LogValue :=
| LStr (s : string)
| LInt (n : Z)
| LBool (b : bool).

(** What the table does to the outside world, in program order: calls
    on routes and log entries. *)
Inductive Effect (R Message : Type) :=
| RouteClose (r : R)
| RouteSend (r : R) (message : Message)
| Infow (msg : string) (fields : list (string * LogValue))
| Errorf (format : string) (arg : R).
Arguments RouteClose {R Message} r.
Arguments RouteSend {R Message} r message.
Arguments Infow {R Message} msg fields.
Arguments Errorf {R Message} format arg.

(** Errors built with [fmt.Errorf(format, ep)]. *)
Inductive error :=
| errorf (format : string) (ep : Search).

Definition no_routes_connected : string := "no routes connected for %s".
Definition no_such_route : string :=
  "request for %s, no such route exists or all are unconfigured".

(** The two errors of [findService]: both say that no route can take
    the request. *)
Definition is_no_route (e : error) : Prop :=
  match e with
  | errorf f _ => f = no_routes_connected ∨ f = no_such_route
  end.

(** [sliceIndex]: the loop [for i := 0; i < limit; i++], [-1] when the
    predicate holds nowhere. *)
Fixpoint sliceIndex_loop (predicate : nat → bool) (n i : nat) : Z :=
  match n with
  | O => -1
  | S n' => if predicate i then Z.of_nat i
            else sliceIndex_loop predicate n' (S i)
  end.

Definition sliceIndex (limit : nat) (predicate : nat → bool) : Z :=
  sliceIndex_loop predicate limit 0.

(** [ConnectedRoutes] with the process-wide [connectedRoutesGauge] and
    the effects emitted so far. The gauge vector is read per label:
    [WithLabelValues(name)] of a label never touched is 0. *)
Record ConnectedRoutes (R Message : Type) := {
  m : gmap string (list R);
  connectedRoutesGauge : string → Z;
  effects : list (Effect R Message) }.
Arguments m {R Message} _.
Arguments connectedRoutesGauge {R Message} _.
Arguments effects {R Message} _.

Module ConnectedRoutes.
Section table.
Context {R Message : Type} `{!Route R Message}.

Abbreviation table := (ConnectedRoutes R Message).

Definition emit (es : list (Effect R Message)) (s : table) : table :=
  {| m := m s;
     connectedRoutesGauge := connectedRoutesGauge s;
     effects := effects s ++ es |}.

Definition gauge_add (name : string) (d : Z) (g : string → Z) : string → Z :=
  λ label, if decide (label = name) then g label + d else g label.

(** [MakeRoutes]; the gauge starts with every label at 0. *)
Definition MakeRoutes : table :=
  {| m := ∅; connectedRoutesGauge := λ _, 0; effects := [] |}.

Definition endpoint_entry (state : R) (endpoint : Endpoint) : Effect R Message :=
  Infow "endpoint"
    [("destination", LStr (GetName state));
     ("sessionId", LStr (GetSession state));
     ("endpointType", LStr (Type_ endpoint));
     ("endpointName", LStr (Name endpoint));
     ("endpointConfigured", LBool (Configured endpoint))].

(** [Add] *)
Definition Add (state : R) (s : table) : table :=
  let routeList := default [] (m s !! GetName state) in
  let routeList := routeList ++ [state] in
  {| m := <[GetName state := routeList]> (m s);
     connectedRoutesGauge :=
       gauge_add (GetName state) 1 (connectedRoutesGauge s);
     effects := effects s ++
       Infow "new route"
         [("destination", LStr (GetName state));
          ("sessionId", LStr (GetSession state));
          ("pathCount", LInt (Z.of_nat (length routeList)));
          ("endpointCount", LInt (Z.of_nat (length (GetEndpoints state))))]
       :: map (endpoint_entry state) (GetEndpoints state) |}.

(** [Remove]. The slot [routeList[len-1] = nil] lies beyond the
    truncated length, so it is not part of the stored slice. *)
Definition Remove (state : R) (s : table) : table :=
  let s := emit [RouteClose state] s in
  match m s !! GetName state with
  | None => emit [Errorf "no routes known by the name of %s" state] s
  | Some routeList =>
      let i := sliceIndex (length routeList)
                 (λ i, bool_decide (routeList !! i = Some state)) in
      if decide (i = -1) then
        emit [Errorf "attempt to remove unknown route %s" state] s
      else
        let routeList :=
          match routeList !! (length routeList - 1)%nat with
          | Some final =>
              take (length routeList - 1)%nat (<[Z.to_nat i := final]> routeList)
          | None => routeList (* i ≠ -1 only on a non-empty slice *)
          end in
        {| m := <[GetName state := routeList]> (m s);
           connectedRoutesGauge :=
             gauge_add (GetName state) (-1) (connectedRoutesGauge s);
           effects := effects s ++
             [Infow "remove route"
                [("destination", LStr (GetName state));
                 ("sessionId", LStr (GetSession state));
                 ("pathCount", LInt (Z.of_nat (length routeList)))]] |}
  end.

(** The indices collected by the loop of [findService], starting at
    index [i]. *)
Fixpoint possibleRoutes (ep : Search) (i : nat) (routeList : list R) : list nat :=
  match routeList with
  | [] => []
  | a :: rest =>
      if HasEndpoint a (EndpointType ep) (EndpointName ep)
      then i :: possibleRoutes ep (S i) rest
      else possibleRoutes ep (S i) rest
  end.

(** [findService], returning the pair [(Route, error)]. [draw] is the
    number the generator [rnd] yields for this call: [rnd.Intn(n)] is
    [draw mod n], any value below [n]. *)
Definition findService (s : table) (ep : Search) (draw : nat)
  : outcome (option R * option error) :=
  match m s !! SearchName ep with
  | None => Return (None, Some (errorf no_routes_connected ep))
  | Some routeList =>
      if decide (length routeList = 0%nat)
      then Return (None, Some (errorf no_routes_connected ep))
      else
        let possible := possibleRoutes ep 0 routeList in
        if decide (length possible = 0%nat)
        then Return (None, Some (errorf no_such_route ep))
        else
          match possible !! (draw `mod` length possible)%nat with
          | None => Panic "index out of range"
          | Some selected =>
              match routeList !! selected with
              | None => Panic "index out of range"
              | Some route => Return (Some route, None)
              end
          end
  end.

(** [Send]: the returned pair [(string, error)] and the table
    afterwards. *)
Definition Send (ep : Search) (message : Message) (draw : nat) (s : table)
  : outcome (string * option error) * table :=
  match findService s ep draw with
  | Panic why => (Panic why, s)
  | Return (_, Some err) => (Return ("", Some err), s)
  | Return (None, None) => (Panic "nil pointer dereference", s)
  | Return (Some route, None) =>
      let session := Tunnelroute.Send route message in
      (Return (session, None), emit [RouteSend route message] s)
  end.

(** The tables the controller can be in: [MakeRoutes] followed by any
    number of [Add], [Remove] and [Send] calls. *)
Inductive reachable : table → Prop :=
| reachable_MakeRoutes : reachable MakeRoutes
| reachable_Add (state : R) (s : table) :
    reachable s → reachable (Add state s)
| reachable_Remove (state : R) (s : table) :
    reachable s → reachable (Remove state s)
| reachable_Send (ep : Search) (message : Message) (draw : nat) (s : table) :
    reachable s → reachable (Send ep message draw s).2.

(** Errors of [Cancel]: the three [fmt.Errorf] calls, in source order. *)
Inductive CancelError :=
| session_is_not_set
| no_routes_connected_for (ep : Search)
| no_routes_with_session (ep : Search).

(** [ep.MatchesRoute(a)]; the method of [Search] is not among the
    sources. *)
Variable MatchesRoute : Search → R → bool.

(** The loop of [Cancel]: the first route of the slice that matches. *)
Fixpoint Cancel_first (ep : Search) (routeList : list R) : option R :=
  match routeList with
  | [] => None
  | a :: rest => if MatchesRoute ep a then Some a else Cancel_first ep rest
  end.

(** [Cancel]: the returned error and the [Cancel(id)] calls made on
    routes. The table is only read. *)
Definition Cancel (ep : Search) (id : string) (s : table)
  : option CancelError * list (R * string) :=
  if decide (String.length (Session ep) = 0%nat)
  then (Some session_is_not_set, [])
  else
    match m s !! SearchName ep with
    | None => (Some (no_routes_connected_for ep), [])
    | Some routeList =>
        if decide (length routeList = 0%nat)
        then (Some (no_routes_connected_for ep), [])
        else
          match Cancel_first ep routeList with
          | Some a => (None, [(a, id)])
          | None => (Some (no_routes_with_session ep), [])
          end
    end.

(** [route.GetStatistics()], an opaque value per route. *)
Context {Statistics : Type}.
Variable Route_GetStatistics : R → Statistics.

(** [GetStatistics]. [visited] is the order in which [range s.m] visits
    the names of the map, which Go leaves unspecified. *)
Definition GetStatistics (visited : list string) (s : table) : list Statistics :=
  foldl (λ ret name,
           foldl (λ ret route, ret ++ [Route_GetStatistics route])
                 ret (default [] (m s !! name)))
        [] visited.

End table.
End ConnectedRoutes.

(** Modelled from the spec: the implementation of [Route] for a directly
    connected agent is not among the sources. Section 3 gives its data
    (name, session id, endpoints, version, hostname) and the lookup rule:
    a route is a candidate when its endpoints include a descriptor of
    the searched type and name with [configured = true]. Section 4.3
    gives [Send]: the message is handed to the route's send channel and
    the session id is returned. [ptr] is the address of the Go object,
    which is what [==] on the interface value compares. *)
Record DirectlyConnectedRoute := {
  ptr : positive;
  route_Name : string;
  route_Session : string;
  route_Endpoints : list Endpoint;
  route_Version : string;
  route_Hostname : string }.

#[global] Instance Annotation_eq_dec : EqDecision Tunnel.Annotation.
Proof. solve_decision. Defined.

#[global] Instance Endpoint_eq_dec : EqDecision Endpoint.
Proof. solve_decision. Defined.

#[global] Instance DirectlyConnectedRoute_eq_dec : EqDecision DirectlyConnectedRoute.
Proof. solve_decision. Defined.

(** Modelled from the spec: a descriptor matches a search when it is
    configured and has the searched type and name. *)
Definition endpoint_matches (endpointType endpointName : string) (ep : Endpoint) : bool :=
  Configured ep
  && bool_decide (Type_ ep = endpointType)
  && bool_decide (Name ep = endpointName).

(** Modelled from the spec: [HasEndpoint] of a directly connected route. *)
Definition DirectlyConnectedRoute_HasEndpoint
    (r : DirectlyConnectedRoute) (endpointType endpointName : string) : bool :=
  existsb (endpoint_matches endpointType endpointName) (route_Endpoints r).

(** A route with zero [configured = true] endpoints of the searched
    type and name. *)
Definition zero_configured_matches (ep : Search) (r : DirectlyConnectedRoute) : Prop :=
  length (filter (λ e, Configured e = true
                       ∧ Type_ e = EndpointType ep
                       ∧ Name e = EndpointName ep)
                 (route_Endpoints r)) = 0%nat.

(** Modelled from the spec: the methods of a directly connected route;
    [Send] returns the session id (Section 4.3). *)
#[global] Instance DirectlyConnectedRoute_Route
  : Route DirectlyConnectedRoute Tunnel.MessageWrapper := {
  Send r _ := route_Session r;
  HasEndpoint := DirectlyConnectedRoute_HasEndpoint;
  GetSession := route_Session;
  GetName := route_Name;
  GetEndpoints := route_Endpoints }.

End Tunnelroute.

(* ================================================================== *)
(** * crypto/x509, crypto/tls and net/http: the parts the agent uses *)
(* ================================================================== *)
Module X509.

(** [x509.Certificate]: the DER encoding and the subject's
    organizational units. *)
Record Certificate := {
  Raw : list byte;
  Subject_OrganizationalUnit : list string }.

(** [Certificate.Equal] on two non-nil certificates: [bytes.Equal] of
    the raw encodings. *)
Definition Equal (c other : Certificate) : bool :=
  bool_decide (Raw c = Raw other).

End X509.

Module TLS.

(** [tls.Certificate]: the chain, leaf first, each entry in DER. *)
Record Certificate := {
  Certificate_ : list (list byte) }.

Definition VersionTLS12 : Z := 0x0303.

Record Config := {
  MinVersion : Z;
  InsecureSkipVerify : bool;
  RootCAs : option (list X509.Certificate);
  Certificates : list Certificate }.

End TLS.

Module HTTP.

(** [http.Header], keys in canonical form. *)
Abbreviation Header := (gmap string (list string)).

Record Request := {
  Method : string;
  URL : string;
  RequestHeader : Header;
  RequestBody : list byte }.

Record Transport := {
  MaxIdleConns : Z;
  IdleConnTimeout_seconds : Z;
  DisableCompression : bool;
  TLSClientConfig : TLS.Config }.

Record Client := { Transport_ : Transport }.

(** The error a [Body.Read] call returns next to its byte count. *)
Inductive ReadErr :=
| err_nil
| io_EOF
| context_Canceled
| err_other (msg : string).

(** One [Body.Read(buf)] call: the [n] bytes it placed in [buf] and the
    error it returned. *)
Record ReadResult := {
  read_data : list byte;
  read_err : ReadErr }.

(** [http.Response]; [Body] lists what the successive [Read] calls
    return. *)
Record Response := {
  StatusCode : Z;
  ResponseHeader : list (string * list string);
  ContentLength : Z;
  Body : list ReadResult }.

Definition StatusBadGateway : Z := 502.

Section header.
Variable CanonicalMIMEHeaderKey : string → string.

Definition Header_Add (h : Header) (key value : string) : Header :=
  let k := CanonicalMIMEHeaderKey key in
  <[k := default [] (h !! k) ++ [value]]> h.

Definition Header_Set (h : Header) (key value : string) : Header :=
  <[CanonicalMIMEHeaderKey key := [value]]> h.

End header.

End HTTP.

(* ================================================================== *)
(** * Frames of a tunnelled transaction (package tunnel helpers) *)
(* ================================================================== *)
Module TunnelHelpers.
Import Tunnel.

(** What an executor does besides computing: the cancel registry and
    the sends on the [dataflow] channel, in program order. Log lines go
    to the process log only and are left out. *)
Inductive Effect :=
| RegisterCancelFunction (id : string)
| UnregisterCancelFunction (id : string)
| Dataflow (frame : MessageWrapper).

(** Where the executor stands once the scripted reads are used up:
    returned, still blocked in [Body.Read], or stopped by a panic. *)
Inductive Status :=
| Returned
| Reading
| Panicked.

(** The frames put on [dataflow], in order. *)
Fixpoint frames (es : list Effect) : list MessageWrapper :=
  match es with
  | [] => []
  | Dataflow fr :: rest => fr :: frames rest
  | _ :: rest => frames rest
  end.

Definition emptyBytes : list byte := [].

(** Modelled from the spec: [MakeBadGatewayResponse] is not among the
    sources; Sections 4.8 and 7 call its frame a synthesized [502]
    response, an [HttpTunnelResponse] carrying the transaction id. *)
Definition MakeBadGatewayResponse (id : string) : MessageWrapper :=
  HttpTunnelControl_ (HttpTunnelResponse_
    {| resp_id := id;
       resp_status := HTTP.StatusBadGateway;
       resp_headers := [];
       resp_contentLength := 0 |}).

(** Modelled from the spec: [makeResponse] is not among the sources; the
    response-header frame of Section 3, [HttpTunnelResponse] with the id,
    status, headers and content length of the HTTP response. *)
Definition makeResponse (id : string) (get : HTTP.Response) : MessageWrapper :=
  HttpTunnelControl_ (HttpTunnelResponse_
    {| resp_id := id;
       resp_status := HTTP.StatusCode get;
       resp_headers :=
         map (λ kv, {| header_name := kv.1; header_values := kv.2 |})
             (HTTP.ResponseHeader get);
       resp_contentLength := HTTP.ContentLength get |}).

(** Modelled from the spec: [makeChunkedResponse] is not among the
    sources; the body frame of Section 3, [HttpTunnelChunkedResponse]
    with the id and the given bytes. *)
Definition makeChunkedResponse (id : string) (body : list byte) : MessageWrapper :=
  HttpTunnelControl_ (HttpTunnelChunkedResponse_
    {| chunk_id := id; chunk_body := body |}).

(** Frame classifiers used to state the ordering properties. *)
Definition is_response (id : string) (fr : MessageWrapper) : Prop :=
  ∃ r, fr = HttpTunnelControl_ (HttpTunnelResponse_ r) ∧ resp_id r = id.

Definition is_data_chunk (id : string) (fr : MessageWrapper) : Prop :=
  ∃ body, fr = makeChunkedResponse id body
          ∧ 0 < Z.of_nat (length body) ≤ 10240.

End TunnelHelpers.

(* ================================================================== *)
(** * app/agent/kubernetes.go *)
(* ================================================================== *)
Module Agent.
Import Tunnel TunnelHelpers.

Record kubeContext := {
  username : string;
  serverURL : string;
  serverCA : option X509.Certificate;
  clientCert : option TLS.Certificate;
  token : string;
  insecure : bool }.

Record KubernetesEndpoint := { f : kubeContext }.

Definition is_nil {A} (p : option A) : bool :=
  match p with None => true | Some _ => false end.

(** [makeServerContextFields]: a field-by-field copy under the read
    lock. *)
Definition makeServerContextFields (ke : KubernetesEndpoint) : kubeContext :=
  {| username := username (f ke);
     serverURL := serverURL (f ke);
     serverCA := serverCA (f ke);
     clientCert := clientCert (f ke);
     token := token (f ke);
     insecure := insecure (f ke) |}.

(** [isSameAs]. [clientCert.Certificate[0]] panics on an empty chain. *)
Definition isSameAs (scf scf2 : kubeContext) : outcome bool :=
  let clientCert_checks : outcome bool :=
    if (is_nil (clientCert scf) && negb (is_nil (clientCert scf2)))
       || (negb (is_nil (clientCert scf)) && is_nil (clientCert scf2))
    then Return false
    else
      match clientCert scf, clientCert scf2 with
      | Some c, Some c2 =>
          match TLS.Certificate_ c !! 0%nat, TLS.Certificate_ c2 !! 0%nat with
          | Some der, Some der2 =>
              if negb (bool_decide (der = der2)) then Return false
              else Return true
          | _, _ => Panic "index out of range"
          end
      | _, _ => Return true
      end in
  if bool_decide (username scf ≠ username scf2)
     || bool_decide (serverURL scf ≠ serverURL scf2)
     || bool_decide (token scf ≠ token scf2)
     || bool_decide (insecure scf ≠ insecure scf2)
  then Return false
  else
    if (is_nil (serverCA scf) && negb (is_nil (serverCA scf2)))
       || (negb (is_nil (serverCA scf)) && is_nil (serverCA scf2))
    then Return false
    else
      match serverCA scf, serverCA scf2 with
      | Some ca, Some ca2 =>
          if negb (X509.Equal ca ca2) then Return false
          else clientCert_checks
      | _, _ => clientCert_checks
      end.

(** One round of the loop of [updateServerContextTicker], given the
    context [saf] that [loadKubernetesSecurity] has just loaded. *)
Definition updateServerContextTicker_round
    (saf : kubeContext) (ke : KubernetesEndpoint) : outcome KubernetesEndpoint :=
  match isSameAs (f ke) saf with
  | Panic why => Panic why
  | Return same => if negb same then Return {| f := saf |} else Return ke
  end.

Inductive error :=
| ReadFileError (path : string)
| ParseCertificateError (msg : string)
| Errorf (msg : string).

Definition token_path : string :=
  "/var/run/secrets/kubernetes.io/serviceaccount/token".
Definition ca_path : string :=
  "/var/run/secrets/kubernetes.io/serviceaccount/ca.crt".

Section environment.
(** [pem.Decode]: the bytes of the first PEM block, [None] when the
    returned block is nil. *)
Variable pem_Decode : list byte → option (list byte).
(** [x509.ParseCertificate] *)
Variable x509_ParseCertificate : list byte → X509.Certificate + string.
(** The readable files and the process environment. *)
Variable files : gmap string (list byte).
Variable environ : gmap string string.

Definition ReadFile (path : string) : option (list byte) := files !! path.

(** [os.Getenv]: the empty string for an unset variable. *)
Definition Getenv (key : string) : string := default "" (environ !! key).

(** [loadServiceAccount], returning the pair of a [kubeContext] pointer and an error. *)
Definition loadServiceAccount : outcome (option kubeContext * option error) :=
  match ReadFile token_path with
  | None => Return (None, Some (ReadFileError token_path))
  | Some token_bytes =>
      match ReadFile ca_path with
      | None => Return (None, Some (ReadFileError ca_path))
      | Some serverCA_bytes =>
          match pem_Decode serverCA_bytes with
          | None => Panic "nil pointer dereference"
          | Some pemBlock_Bytes =>
              match x509_ParseCertificate pemBlock_Bytes with
              | inr err => Return (None, Some (ParseCertificateError err))
              | inl serverCert =>
                  let servicePort := Getenv "KUBERNETES_SERVICE_PORT" in
                  if decide (String.length servicePort = 0%nat) then
                    Return (None, Some (Errorf
                      "unable to locate API server from KUBERNETES_SERVICE_PORT environment variable"))
                  else
                    let serviceHost := Getenv "KUBERNETES_SERVICE_HOST" in
                    if decide (String.length serviceHost = 0%nat) then
                      Return (None, Some (Errorf
                        "unable to locate API server from KUBERNETES_SERVICE_HOST environment variable"))
                    else
                      Return (Some
                        {| username := "ServiceAccount";
                           serverURL := "https://" +:+ serviceHost +:+ ":" +:+ servicePort;
                           serverCA := Some serverCert;
                           clientCert := None;
                           token := String.string_of_list_byte token_bytes;
                           insecure := true |}, None)
              end
          end
      end
  end.

End environment.

Section executor.
Variable CanonicalMIMEHeaderKey : string → string.
(** [http.NewRequestWithContext method url body] *)
Variable http_NewRequestWithContext :
  string → string → list byte → HTTP.Request + string.
(** [client.Do]: the response of the API server, or the transport
    error. *)
Variable client_Do : HTTP.Client → HTTP.Request → HTTP.Response + string.

(** The loop over [get.Body.Read(buf)] with [buf] of 10240 bytes. A
    count above the capacity makes [buf[:n]] panic. *)
Fixpoint readLoop (id : string) (reads : list HTTP.ReadResult)
  : list Effect * Status :=
  match reads with
  | [] => ([], Reading)
  | rd :: rest =>
      let n := Z.of_nat (length (HTTP.read_data rd)) in
      if decide (10240 < n) then ([], Panicked)
      else
        let sent :=
          if decide (0 < n)
          then [Dataflow (makeChunkedResponse id (HTTP.read_data rd))]
          else [] in
        match HTTP.read_err rd with
        | HTTP.io_EOF =>
            (sent ++ [Dataflow (makeChunkedResponse id emptyBytes)], Returned)
        | HTTP.context_Canceled => (sent, Returned)
        | HTTP.err_other _ =>
            (sent ++ [Dataflow (makeChunkedResponse id emptyBytes)], Returned)
        | HTTP.err_nil =>
            let '(more, st) := readLoop id rest in (sent ++ more, st)
        end
  end.

Definition add_values (name : string) (values : list string) (h : HTTP.Header)
  : HTTP.Header :=
  foldl (λ h value, HTTP.Header_Add CanonicalMIMEHeaderKey h name value) h values.

Definition add_headers (headers : list HttpHeader) (h : HTTP.Header) : HTTP.Header :=
  foldl (λ h header, add_values (header_name header) (header_values header) h)
        h headers.

Definition with_header (r : HTTP.Request) (h : HTTP.Header) : HTTP.Request :=
  {| HTTP.Method := HTTP.Method r;
     HTTP.URL := HTTP.URL r;
     HTTP.RequestHeader := h;
     HTTP.RequestBody := HTTP.RequestBody r |}.

Definition make_client (c : kubeContext) : HTTP.Client :=
  let tlsConfig :=
    {| TLS.MinVersion := TLS.VersionTLS12;
       TLS.InsecureSkipVerify := insecure c;
       TLS.RootCAs :=
         match serverCA c with
         | Some ca => Some [ca]
         | None => None
         end;
       TLS.Certificates :=
         match clientCert c with
         | Some cert => [cert]
         | None => []
         end |} in
  {| HTTP.Transport_ :=
       {| HTTP.MaxIdleConns := 10;
          HTTP.IdleConnTimeout_seconds := 30;
          HTTP.DisableCompression := true;
          HTTP.TLSClientConfig := tlsConfig |} |}.

(** The request handed to [client.Do]: the tunnelled headers added one
    value at a time, then the bearer token when there is one. *)
Definition outbound (c : kubeContext) (req : OpenHTTPTunnelRequest)
    (httpRequest : HTTP.Request) : HTTP.Request :=
  let h := add_headers (req_headers req) (HTTP.RequestHeader httpRequest) in
  let h :=
    if decide (0 < String.length (token c))%nat
    then HTTP.Header_Set CanonicalMIMEHeaderKey h
           "Authorization" ("Bearer " +:+ token c)
    else h in
  with_header httpRequest h.

(** [executeHTTPRequest]: the effects in program order and where the
    call stands. The deferred [unregisterCancelFunction] runs when the
    function returns or panics. *)
Definition executeHTTPRequest (ke : KubernetesEndpoint) (req : OpenHTTPTunnelRequest)
  : list Effect * Status :=
  let c := makeServerContextFields ke in
  let client := make_client c in
  let '(body, st) :=
    match http_NewRequestWithContext
            (req_method req) (serverURL c +:+ req_URI req) (req_body req) with
    | inr err => ([Dataflow (MakeBadGatewayResponse (req_id req))], Returned)
    | inl httpRequest =>
        match client_Do client (outbound c req httpRequest) with
        | inr err => ([Dataflow (MakeBadGatewayResponse (req_id req))], Returned)
        | inl get =>
            let '(sent, st) := readLoop (req_id req) (HTTP.Body get) in
            (Dataflow (makeResponse (req_id req) get) :: sent, st)
        end
    end in
  (RegisterCancelFunction (req_id req) :: body
     ++ match st with
        | Reading => []
        | _ => [UnregisterCancelFunction (req_id req)]
        end,
   st).

End executor.

(** The first non-nil error among the reads of a body, [None] while
    every read so far returned a nil error. *)
Fixpoint body_end (reads : list HTTP.ReadResult) : option HTTP.ReadErr :=
  match reads with
  | [] => None
  | rd :: rest =>
      match HTTP.read_err rd with
      | HTTP.err_nil => body_end rest
      | e => Some e
      end
  end.

(** The terminal frames of a body, by the way its reads end: a
    zero-length chunk after end of file or a read error, nothing after a
    cancellation or while the body is still being read. *)
Definition terminator (id : string) (reads : list HTTP.ReadResult)
  : list MessageWrapper :=
  match body_end reads with
  | Some HTTP.io_EOF | Some (HTTP.err_other _) =>
      [makeChunkedResponse id emptyBytes]
  | _ => []
  end.

(** Where the loop stands on such a body. *)
Definition standing (reads : list HTTP.ReadResult) : Status :=
  match body_end reads with
  | Some _ => Returned
  | None => Reading
  end.

(** The reader keeps the contract of [io.Reader]: a read returns at most
    [len(buf)] bytes. *)
Definition fits_buffer (reads : list HTTP.ReadResult) : Prop :=
  Forall (λ rd, Z.of_nat (length (HTTP.read_data rd)) ≤ 10240) reads.

(** The comparison in the words of the specification: same username,
    URL, token and insecure flag, CA certificates both absent or with
    identical bytes, client certificates both absent or with identical
    first DER entry. *)
Definition same_context (a b : kubeContext) : Prop :=
  username a = username b
  ∧ serverURL a = serverURL b
  ∧ token a = token b
  ∧ insecure a = insecure b
  ∧ match serverCA a, serverCA b with
    | None, None => True
    | Some ca, Some cb => X509.Raw ca = X509.Raw cb
    | _, _ => False
    end
  ∧ match clientCert a, clientCert b with
    | None, None => True
    | Some ca, Some cb =>
        ∃ der, TLS.Certificate_ ca !! 0%nat = Some der
               ∧ TLS.Certificate_ cb !! 0%nat = Some der
    | _, _ => False
    end.

(** The transaction id a frame carries. *)
Definition frame_id (fr : MessageWrapper) : option string :=
  match fr with
  | HttpTunnelControl_ (OpenHTTPTunnelRequest_ r) => Some (req_id r)
  | HttpTunnelControl_ (CancelRequest_ id) => Some id
  | HttpTunnelControl_ (HttpTunnelResponse_ r) => Some (resp_id r)
  | HttpTunnelControl_ (HttpTunnelChunkedResponse_ c) => Some (chunk_id c)
  | _ => None
  end.

(** The body bytes the chunk frames of a sequence carry, in order. *)
Fixpoint chunk_bytes (frs : list MessageWrapper) : list byte :=
  match frs with
  | [] => []
  | HttpTunnelControl_ (HttpTunnelChunkedResponse_ c) :: rest =>
      chunk_body c ++ chunk_bytes rest
  | _ :: rest => chunk_bytes rest
  end.

(** The bytes the reads of a body hand over, up to and including the
    read that returns the first non-nil error. *)
Fixpoint bytes_read (reads : list HTTP.ReadResult) : list byte :=
  match reads with
  | [] => []
  | rd :: rest =>
      HTTP.read_data rd
      ++ match HTTP.read_err rd with
         | HTTP.err_nil => bytes_read rest
         | _ => []
         end
  end.

(** The values the tunnelled headers carry for one canonical key, in
    order of appearance. *)
Definition tunnelled_values (CanonicalMIMEHeaderKey : string → string)
    (key : string) (headers : list HttpHeader) : list string :=
  mjoin (header_values
           <$> filter (λ header, CanonicalMIMEHeaderKey (header_name header) = key)
                      headers).

(** A context whose client certificate, when there is one, has a
    non-empty chain, as [tls.X509KeyPair] returns it. *)
Definition has_leaf (c : kubeContext) : Prop :=
  match clientCert c with
  | Some cert => TLS.Certificate_ cert ≠ []
  | None => True
  end.

(** A call that returns, panics, or ends the process through
    [log.Fatalf] with the given format. *)
Inductive run (A : Type) : Type :=
| Returns (a : A)
| Panics (why : string)
| Fatalf (format : string).
Arguments Returns {A} a.
Arguments Panics {A} why.
Arguments Fatalf {A} format.

(** The user and cluster entries [FindContext] hands back: the fields
    [serverContextFromKubeconfig] reads. *)
Record KubeUser := {
  user_Name : string;
  ClientCertificateData : string;
  ClientKeyData : string }.

Record KubeCluster := {
  cluster_Name : string;
  Server : string;
  InsecureSkipTLSVerify : bool;
  CertificateAuthorityData : string }.

Section kubeconfig.
(** Package [kubeconfig] is not among the sources: its configuration
    type, [CurrentContext], [GetContextNames], [FindContext] and
    [ReadKubeConfig] are parameters, as are the library calls. *)
Variable KubeConfig : Type.
Variable CurrentContext : KubeConfig → string.
Variable GetContextNames : KubeConfig → list string.
Variable FindContext : KubeConfig → string → (KubeUser * KubeCluster) + string.
Variable ReadKubeConfig : list byte → KubeConfig + string.
Variable base64_DecodeString : string → list byte + string.
Variable tls_X509KeyPair : list byte → list byte → TLS.Certificate + string.
Variable pem_Decode : list byte → option (list byte).
Variable x509_ParseCertificate : list byte → X509.Certificate + string.
Variable files : gmap string (list byte).
Variable environ : gmap string string.

(** The body of the loop of [serverContextFromKubeconfig] for the name
    that is the current context. *)
Definition context_of (kconfig : KubeConfig) (name : string) : run kubeContext :=
  match FindContext kconfig name with
  | inr err =>
      Fatalf "Unable to retrieve cluster and user info for context %s: %v"
  | inl (user, cluster) =>
      match base64_DecodeString (ClientCertificateData user) with
      | inr err => Fatalf "Error decoding user cert from base64 (%s): %v"
      | inl certData =>
          match base64_DecodeString (ClientKeyData user) with
          | inr err => Fatalf "Error decoding user key from base64 (%s): %v"
          | inl keyData =>
              match tls_X509KeyPair certData keyData with
              | inr err => Fatalf "Error loading client cert/key: %v"
              | inl clientKeypair =>
                  let saf (ca : option X509.Certificate) :=
                    {| username := user_Name user;
                       serverURL := Server cluster;
                       serverCA := ca;
                       clientCert := Some clientKeypair;
                       token := "";
                       insecure := InsecureSkipTLSVerify cluster |} in
                  if decide (0 < String.length (CertificateAuthorityData cluster))%nat
                  then
                    match base64_DecodeString (CertificateAuthorityData cluster) with
                    | inr err =>
                        Fatalf "Error decoding server CA cert from base64 (%s): %v"
                    | inl serverCA_bytes =>
                        match pem_Decode serverCA_bytes with
                        | None => Panics "nil pointer dereference"
                        | Some pemBlock_Bytes =>
                            match x509_ParseCertificate pemBlock_Bytes with
                            | inr err => Fatalf "Error parsing server certificate: %v"
                            | inl serverCert => Returns (saf (Some serverCert))
                            end
                        end
                    end
                  else Returns (saf None)
              end
          end
      end
  end.

(** The loop [for _, name := range names] of
    [serverContextFromKubeconfig]. *)
Fixpoint context_loop (kconfig : KubeConfig) (names : list string)
  : run kubeContext :=
  match names with
  | [] => Fatalf "Default context not found in kubeconfig"
  | name :: rest =>
      if decide (name ≠ CurrentContext kconfig)
      then context_loop kconfig rest
      else context_of kconfig name
  end.

(** [serverContextFromKubeconfig] *)
Definition serverContextFromKubeconfig (kconfig : KubeConfig) : run kubeContext :=
  context_loop kconfig (GetContextNames kconfig).

(** [loadKubernetesSecurity], for the kubeconfig path of the
    configuration; [None] is a nil pointer. *)
Definition loadKubernetesSecurity (path : string) : run (option kubeContext) :=
  match files !! path with
  | Some yamlString =>
      match ReadKubeConfig yamlString with
      | inr err => Fatalf "Unable to read kubeconfig: %v"
      | inl kconfig =>
          match serverContextFromKubeconfig kconfig with
          | Returns c => Returns (Some c)
          | Panics why => Panics why
          | Fatalf format => Fatalf format
          end
      end
  | None =>
      match loadServiceAccount pem_Decode x509_ParseCertificate files environ with
      | Panic why => Panics why
      | Return (_, Some err) =>
          Fatalf "No kubeconfig and no Kubernetes account found: %v"
      | Return (sa, None) => Returns sa
      end
  end.

(** [MakeKubernetesEndpoint]: the endpoint with the loaded context; the
    refresh worker is started beside it. *)
Definition MakeKubernetesEndpoint (path : string) : run KubernetesEndpoint :=
  match loadKubernetesSecurity path with
  | Returns (Some c) => Returns {| f := c |}
  | Returns None => Panics "nil pointer dereference"
  | Panics why => Panics why
  | Fatalf format => Fatalf format
  end.

End kubeconfig.

End Agent.

(* ================================================================== *)
(** * package serviceconfig: the later Kubernetes endpoint *)
(* ================================================================== *)
Module Serviceconfig.
Import Tunnel TunnelHelpers.

(** The struct has the same six fields in both versions of the file. *)
Abbreviation kubeContext := Agent.kubeContext.

Record kubernetesConfig := { KubeConfig : string }.

Record KubernetesEndpoint := {
  f : kubeContext;
  config : kubernetesConfig }.

Definition makeServerContextFields (ke : KubernetesEndpoint) : kubeContext :=
  {| Agent.username := Agent.username (f ke);
     Agent.serverURL := Agent.serverURL (f ke);
     Agent.serverCA := Agent.serverCA (f ke);
     Agent.clientCert := Agent.clientCert (f ke);
     Agent.token := Agent.token (f ke);
     Agent.insecure := Agent.insecure (f ke) |}.

(** [tlsCertEqual] *)
Definition tlsCertEqual (s1 s2 : option TLS.Certificate) : outcome bool :=
  match s1, s2 with
  | None, None => Return true
  | Some _, None | None, Some _ => Return false
  | Some c1, Some c2 =>
      match TLS.Certificate_ c1 !! 0%nat, TLS.Certificate_ c2 !! 0%nat with
      | Some der1, Some der2 => Return (bool_decide (der1 = der2))
      | _, _ => Panic "index out of range"
      end
  end.

(** [x509CertEqual] *)
Definition x509CertEqual (s1 s2 : option X509.Certificate) : bool :=
  match s1, s2 with
  | None, None => true
  | Some _, None | None, Some _ => false
  | Some c1, Some c2 => X509.Equal c1 c2
  end.

(** [isSameAs] *)
Definition isSameAs (scf scf2 : kubeContext) : outcome bool :=
  if bool_decide (Agent.username scf ≠ Agent.username scf2)
     || bool_decide (Agent.serverURL scf ≠ Agent.serverURL scf2)
     || bool_decide (Agent.token scf ≠ Agent.token scf2)
     || bool_decide (Agent.insecure scf ≠ Agent.insecure scf2)
  then Return false
  else
    if negb (x509CertEqual (Agent.serverCA scf) (Agent.serverCA scf2))
    then Return false
    else tlsCertEqual (Agent.clientCert scf) (Agent.clientCert scf2).

(** One round of the loop of [updateServerContextTicker], given the
    context [saf] that [loadKubernetesSecurity] has just loaded. *)
Definition updateServerContextTicker_round
    (saf : kubeContext) (ke : KubernetesEndpoint) : outcome KubernetesEndpoint :=
  match isSameAs (f ke) saf with
  | Panic why => Panic why
  | Return same =>
      if negb same then Return {| f := saf; config := config ke |}
      else Return ke
  end.

Section environment.
Variable pem_Decode : list byte → option (list byte).
Variable x509_ParseCertificate : list byte → X509.Certificate + string.
Variable files : gmap string (list byte).
Variable environ : gmap string string.

(** [loadServiceAccount]: the text of the earlier version, with
    [os.ReadFile] for [ioutil.ReadFile]. *)
Definition loadServiceAccount
  : outcome (option kubeContext * option Agent.error) :=
  match Agent.ReadFile files Agent.token_path with
  | None => Return (None, Some (Agent.ReadFileError Agent.token_path))
  | Some token_bytes =>
      match Agent.ReadFile files Agent.ca_path with
      | None => Return (None, Some (Agent.ReadFileError Agent.ca_path))
      | Some serverCA_bytes =>
          match pem_Decode serverCA_bytes with
          | None => Panic "nil pointer dereference"
          | Some pemBlock_Bytes =>
              match x509_ParseCertificate pemBlock_Bytes with
              | inr err => Return (None, Some (Agent.ParseCertificateError err))
              | inl serverCert =>
                  let servicePort := Agent.Getenv environ "KUBERNETES_SERVICE_PORT" in
                  if decide (String.length servicePort = 0%nat) then
                    Return (None, Some (Agent.Errorf
                      "unable to locate API server from KUBERNETES_SERVICE_PORT environment variable"))
                  else
                    let serviceHost := Agent.Getenv environ "KUBERNETES_SERVICE_HOST" in
                    if decide (String.length serviceHost = 0%nat) then
                      Return (None, Some (Agent.Errorf
                        "unable to locate API server from KUBERNETES_SERVICE_HOST environment variable"))
                    else
                      Return (Some
                        {| Agent.username := "ServiceAccount";
                           Agent.serverURL :=
                             "https://" +:+ serviceHost +:+ ":" +:+ servicePort;
                           Agent.serverCA := Some serverCert;
                           Agent.clientCert := None;
                           Agent.token := String.string_of_list_byte token_bytes;
                           Agent.insecure := true |}, None)
              end
          end
      end
  end.

End environment.

Section executor.
Variable CanonicalMIMEHeaderKey : string → string.
Variable http_NewRequestWithContext :
  string → string → list byte → HTTP.Request + string.
(** [tunnel.CopyHeaders]: the header after the copy and the error. *)
Variable tunnel_CopyHeaders :
  list HttpHeader → HTTP.Header → HTTP.Header * option string.
(** [tunnel.RunHTTPRequest]: the frames it puts on [dataflow]. *)
Variable tunnel_RunHTTPRequest :
  HTTP.Client → OpenHTTPTunnelRequest → HTTP.Request → string → list MessageWrapper.

(** [ExecuteHTTPRequest] *)
Definition ExecuteHTTPRequest (ke : KubernetesEndpoint) (req : OpenHTTPTunnelRequest)
  : list Effect :=
  let c := makeServerContextFields ke in
  let client := Agent.make_client c in
  let body :=
    match http_NewRequestWithContext
            (req_method req) (Agent.serverURL c +:+ req_URI req) (req_body req) with
    | inr err => [Dataflow (MakeBadGatewayResponse (req_id req))]
    | inl httpRequest =>
        match tunnel_CopyHeaders (req_headers req) (HTTP.RequestHeader httpRequest) with
        | (_, Some err) => [Dataflow (MakeBadGatewayResponse (req_id req))]
        | (h, None) =>
            let h :=
              if decide (0 < String.length (Agent.token c))%nat
              then HTTP.Header_Set CanonicalMIMEHeaderKey h
                     "Authorization" ("Bearer " +:+ Agent.token c)
              else h in
            map Dataflow
              (tunnel_RunHTTPRequest client req
                 (Agent.with_header httpRequest h) (Agent.serverURL c))
        end
    end in
  RegisterCancelFunction (req_id req) :: body
    ++ [UnregisterCancelFunction (req_id req)].

End executor.

Definition default_kubeconfig : string := "/app/config/kubeconfig.yaml".

Section make.
Variable KConfig : Type.
Variable CurrentContext : KConfig → string.
Variable GetContextNames : KConfig → list string.
Variable FindContext :
  KConfig → string → (Agent.KubeUser * Agent.KubeCluster) + string.
Variable ReadKubeConfig : list byte → KConfig + string.
Variable base64_DecodeString : string → list byte + string.
Variable tls_X509KeyPair : list byte → list byte → TLS.Certificate + string.
Variable pem_Decode : list byte → option (list byte).
Variable x509_ParseCertificate : list byte → X509.Certificate + string.
(** [yaml.Unmarshal] into a [kubernetesConfig]. *)
Variable yaml_Unmarshal : list byte → kubernetesConfig + string.
Variable files : gmap string (list byte).
Variable environ : gmap string string.

(** [loadKubernetesSecurity]: the text of the earlier version, reading
    the path from the endpoint's own configuration. *)
Definition loadKubernetesSecurity (config : kubernetesConfig)
  : Agent.run (option kubeContext) :=
  Agent.loadKubernetesSecurity KConfig CurrentContext GetContextNames
    FindContext ReadKubeConfig base64_DecodeString tls_X509KeyPair
    pem_Decode x509_ParseCertificate files environ (KubeConfig config).

(** [MakeKubernetesEndpoint], returning the triple of the endpoint, the
    configured flag and the error. *)
Definition MakeKubernetesEndpoint (name : string) (configBytes : list byte)
  : Agent.run (option KubernetesEndpoint * bool * option string) :=
  match yaml_Unmarshal configBytes with
  | inr err => Agent.Returns (None, false, Some err)
  | inl config =>
      let config :=
        if decide (KubeConfig config = "")
        then {| KubeConfig := default_kubeconfig |}
        else config in
      match loadKubernetesSecurity config with
      | Agent.Returns (Some c) =>
          Agent.Returns (Some {| f := c; config := config |}, true, None)
      | Agent.Returns None => Agent.Panics "nil pointer dereference"
      | Agent.Panics why => Agent.Panics why
      | Agent.Fatalf format => Agent.Fatalf format
      end
  end.

End make.

End Serviceconfig.

(* ================================================================== *)
(** * forwarder-controller: agent name from the peer certificate *)
(* ================================================================== *)
Module Controller.

(** [codes.Code] of gRPC: the two values that matter here. *)
Definition codes_Unknown : Z := 2.
Definition codes_Unauthenticated : Z := 16.

(** Errors on this path: a gRPC status, a plain [fmt.Errorf] error, or
    the error handed back by package [ca]. *)
Inductive error :=
| status_Error (code : Z) (msg : string)
| fmt_Errorf (msg : string)
| ca_error (msg : string).

(** [status.Code]: the code of a status error, [Unknown] for any other
    error. *)
Definition status_Code (e : error) : Z :=
  match e with
  | status_Error c _ => c
  | _ => codes_Unknown
  end.

(** Modelled from the spec: [ca.CertificateName] is not among the
    sources; Section 3 gives [CertificateName{purpose, agent?, name?}]
    and the purposes [agent], [control] and [service]. *)
Record CertificateName := {
  Purpose : string;
  Agent : string;
  Name : string }.

Definition CertificatePurposeAgent : string := "agent".

(** [p.AuthInfo.(credentials.TLSInfo)]: TLS credentials with the
    verified chains of the connection state, or anything else. *)
Inductive AuthInfo :=
| TLSInfo (VerifiedChains : list (list X509.Certificate))
| OtherAuthInfo.

(** A [context.Context] as [peer.FromContext] sees it. *)
Record Context := { peer : option AuthInfo }.

Section identity.
(** [json.Unmarshal] into a [CertificateName], or its error text. *)
Variable json_Unmarshal : string → CertificateName + string.

(** Modelled from the spec: [ca.GetCertificateNameFromCert] is not among
    the sources; Section 4.2 says the OU of the leaf is parsed as JSON
    into a [CertificateName]. A certificate without OU has nothing to
    parse. *)
Definition GetCertificateNameFromCert (cert : X509.Certificate)
  : CertificateName + error :=
  match X509.Subject_OrganizationalUnit cert with
  | [] => inr (ca_error "no OU in certificate")
  | ou :: _ =>
      match json_Unmarshal ou with
      | inl names => inl names
      | inr msg => inr (ca_error msg)
      end
  end.

(** [getAgentNameFromCertificate] *)
Definition getAgentNameFromCertificate (cert : X509.Certificate)
  : string * option error :=
  match GetCertificateNameFromCert cert with
  | inr err => ("", Some err)
  | inl names =>
      if bool_decide (Purpose names ≠ CertificatePurposeAgent)
      then ("", Some (fmt_Errorf "not an agent certificate"))
      else (Agent names, None)
  end.

(** [getAgentNameFromContext] *)
Definition getAgentNameFromContext (ctx : Context) : string * option error :=
  match peer ctx with
  | None => ("", Some (status_Error codes_Unauthenticated "no peer found"))
  | Some OtherAuthInfo =>
      ("", Some (status_Error codes_Unauthenticated
                   "unexpected peer transport credentials"))
  | Some (TLSInfo VerifiedChains) =>
      match VerifiedChains with
      | [] | [] :: _ =>
          ("", Some (status_Error codes_Unauthenticated
                       "could not verify peer certificate"))
      | (leaf :: _) :: _ => getAgentNameFromCertificate leaf
      end
  end.

End identity.

End Controller.

(* ================================================================== *)
(** * Concrete routes, requests and responses used as test inputs *)
(* ================================================================== *)
Module Samples.
Import Tunnel Tunnelroute.

Definition prod_endpoint (configured : bool) : Endpoint :=
  {| Name := "prod"; Type_ := "kubernetes"; Configured := configured;
     Namespaces := []; AccountID := ""; AssumeRole := ""; Annotations := [] |}.

Definition route_A : DirectlyConnectedRoute :=
  {| ptr := 1; route_Name := "a1"; route_Session := "session-A";
     route_Endpoints := [prod_endpoint true];
     route_Version := "v1"; route_Hostname := "hostA" |}.

Definition route_B : DirectlyConnectedRoute :=
  {| ptr := 2; route_Name := "a1"; route_Session := "session-B";
     route_Endpoints := [prod_endpoint false];
     route_Version := "v1"; route_Hostname := "hostB" |}.

Definition route_C : DirectlyConnectedRoute :=
  {| ptr := 3; route_Name := "a1"; route_Session := "session-C";
     route_Endpoints := [prod_endpoint true];
     route_Version := "v2"; route_Hostname := "hostC" |}.

Definition search_prod : Search :=
  {| SearchName := "a1"; EndpointType := "kubernetes";
     EndpointName := "prod"; Session := "" |}.

Definition ping : MessageWrapper := PingRequest_ 0.

Abbreviation table := (ConnectedRoutes DirectlyConnectedRoute MessageWrapper).

Definition empty_table : table := ConnectedRoutes.MakeRoutes.
Definition table_A : table := ConnectedRoutes.Add route_A empty_table.
Definition table_B : table := ConnectedRoutes.Add route_B empty_table.
Definition table_ABC : table :=
  ConnectedRoutes.Add route_C
    (ConnectedRoutes.Add route_B (ConnectedRoutes.Add route_A empty_table)).

(** A search that names one session, and a session match on it. *)
Definition search_session_B : Search :=
  {| SearchName := "a1"; EndpointType := "kubernetes";
     EndpointName := "prod"; Session := "session-B" |}.

Definition matches_session (ep : Search) (r : DirectlyConnectedRoute) : bool :=
  bool_decide (Session ep = route_Session r).

(** A server that answers, and the ways the outbound call can fail. *)
Definition canonical (key : string) : string := key.

Definition new_request (method url : string) (body : list byte)
  : HTTP.Request + string :=
  inl {| HTTP.Method := method; HTTP.URL := url;
         HTTP.RequestHeader := ∅; HTTP.RequestBody := body |}.

Definition new_request_fails (method url : string) (body : list byte)
  : HTTP.Request + string :=
  inr "net/http: invalid method".

Definition answers (get : HTTP.Response)
  : HTTP.Client → HTTP.Request → HTTP.Response + string :=
  λ _ _, inl get.

Definition refuses : HTTP.Client → HTTP.Request → HTTP.Response + string :=
  λ _ _, inr "connection refused".

Definition context_0 : Agent.kubeContext :=
  {| Agent.username := "admin"; Agent.serverURL := "https://kube.local";
     Agent.serverCA := None; Agent.clientCert := None;
     Agent.token := "secret"; Agent.insecure := false |}.

Definition context_1 : Agent.kubeContext :=
  {| Agent.username := "admin"; Agent.serverURL := "https://kube.local";
     Agent.serverCA := None; Agent.clientCert := None;
     Agent.token := "rotated"; Agent.insecure := false |}.

Definition endpoint_0 : Agent.KubernetesEndpoint := {| Agent.f := context_0 |}.

Definition endpoint_1 : Serviceconfig.KubernetesEndpoint :=
  {| Serviceconfig.f := context_0;
     Serviceconfig.config :=
       {| Serviceconfig.KubeConfig := "/app/config/kubeconfig.yaml" |} |}.

Definition request_0 : OpenHTTPTunnelRequest :=
  {| req_id := "t1"; req_name := "prod"; req_type := "kubernetes";
     req_method := "GET"; req_URI := "/v1/pods";
     req_headers :=
       [{| header_name := "Accept"; header_values := ["application/json"] |}];
     req_body := [] |}.

Definition response_with (body : list HTTP.ReadResult) : HTTP.Response :=
  {| HTTP.StatusCode := 200; HTTP.ResponseHeader := [];
     HTTP.ContentLength := -1; HTTP.Body := body |}.

(** Two bytes, then end of file. *)
Definition body_complete : list HTTP.ReadResult :=
  [{| HTTP.read_data := [x7b; x7d]; HTTP.read_err := HTTP.err_nil |};
   {| HTTP.read_data := []; HTTP.read_err := HTTP.io_EOF |}].

(** One byte, then the transaction is cancelled. *)
Definition body_cancelled : list HTTP.ReadResult :=
  [{| HTTP.read_data := [x7b]; HTTP.read_err := HTTP.err_nil |};
   {| HTTP.read_data := []; HTTP.read_err := HTTP.context_Canceled |}].

(** One byte, then the connection breaks. *)
Definition body_broken : list HTTP.ReadResult :=
  [{| HTTP.read_data := [x7b]; HTTP.read_err := HTTP.err_nil |};
   {| HTTP.read_data := []; HTTP.read_err := HTTP.err_other "unexpected EOF" |}].

(** A pod with a mounted service account. *)
Definition pem_plain (data : list byte) : option (list byte) := Some data.

Definition parse_plain (der : list byte) : X509.Certificate + string :=
  inl {| X509.Raw := der; X509.Subject_OrganizationalUnit := [] |}.

Definition pod_files : gmap string (list byte) :=
  <[Agent.token_path := [x74; x6f; x6b]]> (<[Agent.ca_path := [x30; x82]]> ∅).

Definition pod_environ : gmap string string :=
  <["KUBERNETES_SERVICE_HOST" := "10.0.0.1"]>
    (<["KUBERNETES_SERVICE_PORT" := "443"]> ∅).

Definition pod_context : Agent.kubeContext :=
  {| Agent.username := "ServiceAccount";
     Agent.serverURL := "https://10.0.0.1:443";
     Agent.serverCA :=
       Some {| X509.Raw := [x30; x82]; X509.Subject_OrganizationalUnit := [] |};
     Agent.clientCert := None;
     Agent.token := "tok";
     Agent.insecure := true |}.

(** A kubeconfig with two contexts, the second one current. *)
Record toy_kubeconfig := {
  toy_current : string;
  toy_names : list string }.

Definition toy_config : toy_kubeconfig :=
  {| toy_current := "prod"; toy_names := ["dev"; "prod"] |}.

Definition toy_user : Agent.KubeUser :=
  {| Agent.user_Name := "admin";
     Agent.ClientCertificateData := "Y2VydA==";
     Agent.ClientKeyData := "a2V5" |}.

Definition toy_cluster : Agent.KubeCluster :=
  {| Agent.cluster_Name := "prod";
     Agent.Server := "https://kube.local";
     Agent.InsecureSkipTLSVerify := false;
     Agent.CertificateAuthorityData := "" |}.

Definition toy_find (k : toy_kubeconfig) (name : string)
  : (Agent.KubeUser * Agent.KubeCluster) + string :=
  inl (toy_user, toy_cluster).

Definition toy_read (yaml : list byte) : toy_kubeconfig + string :=
  inl toy_config.

Definition toy_base64 (text : string) : list byte + string :=
  inl (String.list_byte_of_string text).

Definition toy_keypair (cert key : list byte) : TLS.Certificate + string :=
  inl {| TLS.Certificate_ := [cert] |}.

Definition toy_context : Agent.kubeContext :=
  {| Agent.username := "admin";
     Agent.serverURL := "https://kube.local";
     Agent.serverCA := None;
     Agent.clientCert :=
       Some {| TLS.Certificate_ := [String.list_byte_of_string "Y2VydA=="] |};
     Agent.token := "";
     Agent.insecure := false |}.

Definition kubeconfig_files : gmap string (list byte) :=
  <[Serviceconfig.default_kubeconfig := [x61]]> ∅.

Definition toy_yaml (configBytes : list byte) : Serviceconfig.kubernetesConfig + string :=
  inl {| Serviceconfig.KubeConfig := "" |}.

(** Certificates of a control client and of an agent; the toy decoder
    knows the two OU texts. *)
Definition control_name : Controller.CertificateName :=
  {| Controller.Purpose := "control"; Controller.Agent := "";
     Controller.Name := "admin" |}.

Definition agent_name : Controller.CertificateName :=
  {| Controller.Purpose := "agent"; Controller.Agent := "a1";
     Controller.Name := "" |}.

Definition unmarshal (text : string) : Controller.CertificateName + string :=
  if bool_decide (text = "{purpose:control,name:admin}") then inl control_name
  else if bool_decide (text = "{purpose:agent,agent:a1}") then inl agent_name
  else inr "invalid character".

Definition control_cert : X509.Certificate :=
  {| X509.Raw := [x30; x01];
     X509.Subject_OrganizationalUnit := ["{purpose:control,name:admin}"] |}.

Definition agent_cert : X509.Certificate :=
  {| X509.Raw := [x30; x02];
     X509.Subject_OrganizationalUnit := ["{purpose:agent,agent:a1}"] |}.

Definition control_peer : Controller.Context :=
  {| Controller.peer := Some (Controller.TLSInfo [[control_cert]]) |}.

Definition agent_peer : Controller.Context :=
  {| Controller.peer := Some (Controller.TLSInfo [[agent_cert]]) |}.

End Samples.

(* ================================================================== *)
(** * Facts about the route table *)
(* ================================================================== *)
Module TunnelrouteFacts.
Import Tunnelroute Tunnelroute.ConnectedRoutes.

Section slice_index.

Lemma sliceIndex_loop_spec (p : nat → bool) (n i : nat) :
  (sliceIndex_loop p n i = -1 ∧ ∀ j, (i ≤ j < i + n)%nat → p j = false)
  ∨ (∃ k, sliceIndex_loop p n i = Z.of_nat k ∧ (i ≤ k < i + n)%nat
          ∧ p k = true ∧ ∀ j, (i ≤ j < k)%nat → p j = false).
Proof.
  revert i. induction n as [|n IH]; intros i; simpl.
  - left. split; [done|]. intros j Hj. lia.
  - destruct (p i) eqn:Hpi.
    + right. exists i. split; [done|]. split; [lia|]. split; [done|].
      intros j Hj. lia.
    + destruct (IH (S i)) as [[Hnone Hall]|(k & Hk & Hrange & Hpk & Hbefore)].
      * left. split; [done|]. intros j Hj.
        destruct (decide (j = i)) as [->|Hne]; [done|]. apply Hall. lia.
      * right. exists k. split; [done|]. split; [lia|]. split; [done|].
        intros j Hj. destruct (decide (j = i)) as [->|Hne]; [done|].
        apply Hbefore. lia.
Qed.

Lemma sliceIndex_spec (limit : nat) (p : nat → bool) :
  (sliceIndex limit p = -1 ∧ ∀ j, (j < limit)%nat → p j = false)
  ∨ (∃ k, sliceIndex limit p = Z.of_nat k ∧ (k < limit)%nat
          ∧ p k = true ∧ ∀ j, (j < k)%nat → p j = false).
Proof.
  unfold sliceIndex.
  destruct (sliceIndex_loop_spec p limit 0) as [[H1 H2]|(k & H1 & H2 & H3 & H4)].
  - left. split; [done|]. intros j Hj. apply H2. lia.
  - right. exists k. split; [done|]. split; [lia|]. split; [done|].
    intros j Hj. apply H4. lia.
Qed.

End slice_index.

Section table_facts.
Context {R Message : Type} `{!Route R Message}.

Abbreviation table := (ConnectedRoutes R Message).

(** The identity test of [Remove] finds nothing exactly when the route
    is not an element of the slice. *)
Lemma sliceIndex_absent (routeList : list R) (state : R) :
  state ∉ routeList →
  sliceIndex (length routeList)
    (λ i, bool_decide (routeList !! i = Some state)) = -1.
Proof.
  intros Hnot.
  destruct (sliceIndex_spec (length routeList)
              (λ i, bool_decide (routeList !! i = Some state)))
    as [[H1 _]|(k & _ & _ & Hk & _)]; [done|].
  apply bool_decide_eq_true in Hk.
  exfalso. apply Hnot. by eapply list_elem_of_lookup_2.
Qed.

Lemma sliceIndex_present (routeList : list R) (state : R) :
  state ∈ routeList →
  ∃ k, sliceIndex (length routeList)
         (λ i, bool_decide (routeList !! i = Some state)) = Z.of_nat k
       ∧ routeList !! k = Some state.
Proof.
  intros Hin.
  destruct (sliceIndex_spec (length routeList)
              (λ i, bool_decide (routeList !! i = Some state)))
    as [[_ Hall]|(k & Hk & _ & Hpk & _)].
  - apply list_elem_of_lookup in Hin as [i Hi].
    specialize (Hall i (lookup_lt_Some _ _ _ Hi)).
    apply bool_decide_eq_false in Hall. done.
  - exists k. split; [done|]. by apply bool_decide_eq_true in Hpk.
Qed.

(** The slice that [Remove] stores back after an [Add] of the same
    route is the slice [Add] started from. *)
Lemma swap_truncate_after_append (l : list R) (state : R) (k : nat) :
  (l ++ [state]) !! k = Some state →
  take (length (l ++ [state]) - 1) (<[k := state]> (l ++ [state])) = l.
Proof.
  intros Hk. rewrite list_insert_id by done.
  rewrite length_app. simpl.
  replace (length l + 1 - 1)%nat with (length l) by lia.
  by rewrite take_app_length.
Qed.

Lemma Remove_Add_m (s : table) (state : R) :
  m (Remove state (Add state s))
  = <[GetName state := default [] (m s !! GetName state)]> (m s).
Proof.
  unfold Remove, Add. simpl. rewrite lookup_insert_eq.
  set (l := default [] (m s !! GetName state)).
  destruct (sliceIndex_present (l ++ [state]) state) as (k & Hk & Hlk).
  { apply elem_of_app. right. by apply list_elem_of_singleton. }
  rewrite Hk. rewrite decide_False by lia. simpl.
  rewrite Nat2Z.id.
  replace ((l ++ [state]) !! (length (l ++ [state]) - 1)%nat) with (Some state).
  2:{ rewrite length_app. simpl.
      replace (length l + 1 - 1)%nat with (length l + 0)%nat by lia.
      by rewrite lookup_app_r, Nat.add_0_r, Nat.sub_diag by lia. }
  rewrite swap_truncate_after_append by done.
  by rewrite insert_insert_eq.
Qed.

Lemma Remove_Add_gauge (s : table) (state : R) (label : string) :
  connectedRoutesGauge (Remove state (Add state s)) label
  = connectedRoutesGauge s label.
Proof.
  unfold Remove, Add. simpl. rewrite lookup_insert_eq.
  set (l := default [] (m s !! GetName state)).
  destruct (sliceIndex_present (l ++ [state]) state) as (k & Hk & Hlk).
  { apply elem_of_app. right. by apply list_elem_of_singleton. }
  rewrite Hk. rewrite decide_False by lia. simpl.
  unfold gauge_add. destruct (decide (label = GetName state)); lia.
Qed.

Lemma possibleRoutes_elem (ep : Search) (i : nat) (l : list R) (k : nat) :
  k ∈ possibleRoutes ep i l ↔
  ∃ r, (i ≤ k)%nat ∧ l !! (k - i)%nat = Some r
       ∧ HasEndpoint r (EndpointType ep) (EndpointName ep) = true.
Proof.
  revert i. induction l as [|a rest IH]; intros i; simpl.
  - split; [by intros ?%elem_of_nil|]. by intros (r & _ & ? & _).
  - destruct (HasEndpoint a (EndpointType ep) (EndpointName ep)) eqn:Ha.
    + rewrite elem_of_cons, IH. split.
      * intros [->|(r & Hle & Hl & Hr)].
        -- exists a. rewrite Nat.sub_diag. done.
        -- exists r. split; [lia|]. split; [|done].
           replace (k - i)%nat with (S (k - S i)) by lia. done.
      * intros (r & Hle & Hl & Hr).
        destruct (decide (k = i)) as [->|Hne]; [by left|]. right.
        exists r. split; [lia|]. split; [|done].
        replace (k - i)%nat with (S (k - S i)) in Hl by lia. done.
    + rewrite IH. split.
      * intros (r & Hle & Hl & Hr). exists r. split; [lia|]. split; [|done].
        replace (k - i)%nat with (S (k - S i)) by lia. done.
      * intros (r & Hle & Hl & Hr).
        destruct (decide (k = i)) as [->|Hne].
        { rewrite Nat.sub_diag in Hl. simpl in Hl. congruence. }
        exists r. split; [lia|]. split; [|done].
        replace (k - i)%nat with (S (k - S i)) in Hl by lia. done.
Qed.

Lemma possibleRoutes_nil (ep : Search) (i : nat) (l : list R) :
  possibleRoutes ep i l = [] ↔
  ∀ r, r ∈ l → HasEndpoint r (EndpointType ep) (EndpointName ep) = false.
Proof.
  split.
  - intros Hnil r Hr. apply list_elem_of_lookup in Hr as [j Hj].
    destruct (HasEndpoint r (EndpointType ep) (EndpointName ep)) eqn:Hr; [|done].
    assert ((i + j)%nat ∈ possibleRoutes ep i l) as Hin.
    { apply possibleRoutes_elem. exists r. split; [lia|]. split; [|done].
      by replace (i + j - i)%nat with j by lia. }
    rewrite Hnil in Hin. by apply elem_of_nil in Hin.
  - intros Hall. destruct (possibleRoutes ep i l) as [|k ks] eqn:Hp; [done|].
    assert (k ∈ possibleRoutes ep i l) as Hin by (rewrite Hp; left).
    apply possibleRoutes_elem in Hin as (r & _ & Hl & Hr).
    rewrite (Hall r) in Hr; [done|]. by eapply list_elem_of_lookup_2.
Qed.

(** No candidate: [findService] returns a nil route and a no-route
    error. *)
Lemma findService_no_candidate (s : table) (ep : Search) (draw : nat) :
  (m s !! SearchName ep = None
   ∨ ∃ l, m s !! SearchName ep = Some l
          ∧ ∀ r, r ∈ l → HasEndpoint r (EndpointType ep) (EndpointName ep) = false) →
  ∃ e, is_no_route e ∧ findService s ep draw = Return (None, Some e).
Proof.
  unfold findService. intros [Hnone|(l & Hl & Hall)].
  - rewrite Hnone. eexists. split; [|done]. by left.
  - rewrite Hl. destruct (decide (length l = 0%nat)).
    + eexists. split; [|done]. by left.
    + apply (possibleRoutes_nil ep 0) in Hall. rewrite Hall. simpl.
      eexists. split; [|done]. by right.
Qed.

(** Some candidate: [findService] returns a route of the slice that has
    the endpoint, whatever the generator draws; it never panics. *)
Lemma findService_candidate (s : table) (ep : Search) (draw : nat)
    (l : list R) (r : R) :
  m s !! SearchName ep = Some l →
  r ∈ l →
  HasEndpoint r (EndpointType ep) (EndpointName ep) = true →
  ∃ r', r' ∈ l
        ∧ HasEndpoint r' (EndpointType ep) (EndpointName ep) = true
        ∧ findService s ep draw = Return (Some r', None).
Proof.
  intros Hl Hin Hr. unfold findService. rewrite Hl.
  destruct (decide (length l = 0%nat)) as [Hlen|Hlen].
  { apply length_zero_iff_nil in Hlen. subst l. by apply elem_of_nil in Hin. }
  destruct (decide (length (possibleRoutes ep 0 l) = 0%nat)) as [Hp|Hp].
  { apply length_zero_iff_nil in Hp.
    rewrite (proj1 (possibleRoutes_nil ep 0 l) Hp r Hin) in Hr. done. }
  destruct (lookup_lt_is_Some_2 (possibleRoutes ep 0 l)
              (draw `mod` length (possibleRoutes ep 0 l))%nat) as [selected Hsel].
  { by apply Nat.mod_upper_bound. }
  rewrite Hsel.
  assert (selected ∈ possibleRoutes ep 0 l) as Hs
    by (by eapply list_elem_of_lookup_2).
  apply possibleRoutes_elem in Hs as (r' & _ & Hl' & Hr').
  rewrite Nat.sub_0_r in Hl'. rewrite Hl'.
  exists r'. split; [by eapply list_elem_of_lookup_2|]. done.
Qed.

(** Whatever [findService] selects is in the table under the searched
    name and has the endpoint. *)
Lemma findService_selected (s : table) (ep : Search) (draw : nat) (r : R) :
  findService s ep draw = Return (Some r, None) →
  ∃ l, m s !! SearchName ep = Some l ∧ r ∈ l
       ∧ HasEndpoint r (EndpointType ep) (EndpointName ep) = true.
Proof.
  unfold findService. destruct (m s !! SearchName ep) as [l|]; [|done].
  destruct (decide (length l = 0%nat)); [done|].
  destruct (decide (length (possibleRoutes ep 0 l) = 0%nat)); [done|].
  destruct (possibleRoutes ep 0 l !! _) as [selected|] eqn:Hsel; [|done].
  destruct (l !! selected) as [r'|] eqn:Hl; [|done].
  intros [= ->]. exists l. split; [done|].
  split; [by eapply list_elem_of_lookup_2|].
  apply list_elem_of_lookup_2, possibleRoutes_elem in Hsel as (r' & _ & Hl' & Hr').
  rewrite Nat.sub_0_r in Hl'. congruence.
Qed.

(** C1. [Send] fails with a no-route error, hands the message to no
    route and returns the empty session id, when no route is registered
    under the searched name or no registered route under that name has
    the searched endpoint. Otherwise it returns the session id of a
    route that is in the table under that name and has the endpoint,
    and the message is handed to that route. One of the two cases
    always applies. [Hsession] is the contract of [Route.Send]: it
    returns the session id of the route it is called on. *)
Theorem Send_no_route_or_session
    (Hsession : ∀ (r : R) (msg : Message), Tunnelroute.Send r msg = GetSession r)
    (s : table) (ep : Search) (message : Message) (draw : nat) :
  let no_candidate :=
    m s !! SearchName ep = None
    ∨ ∃ l, m s !! SearchName ep = Some l
           ∧ ∀ r, r ∈ l → HasEndpoint r (EndpointType ep) (EndpointName ep) = false in
  let candidate :=
    ∃ l r, m s !! SearchName ep = Some l ∧ r ∈ l
           ∧ HasEndpoint r (EndpointType ep) (EndpointName ep) = true in
  (no_candidate →
     ∃ e, is_no_route e ∧ Send ep message draw s = (Return ("", Some e), s))
  ∧ (candidate →
     ∃ l r, m s !! SearchName ep = Some l ∧ r ∈ l
            ∧ HasEndpoint r (EndpointType ep) (EndpointName ep) = true
            ∧ Send ep message draw s
              = (Return (GetSession r, None), emit [RouteSend r message] s))
  ∧ (no_candidate ∨ candidate).
Proof.
  intros no_candidate candidate. split; [|split].
  - intros Hno. destruct (findService_no_candidate s ep draw Hno) as (e & He & Hf).
    exists e. split; [done|]. unfold Send. by rewrite Hf.
  - intros (l & r & Hl & Hin & Hr).
    destruct (findService_candidate s ep draw l r Hl Hin Hr) as (r' & Hin' & Hr' & Hf).
    exists l, r'. repeat split; try done.
    unfold Send. rewrite Hf. by rewrite Hsession.
  - unfold no_candidate, candidate.
    destruct (m s !! SearchName ep) as [l|] eqn:Hl; [|by left; left].
    destruct (possibleRoutes ep 0 l) as [|k ks] eqn:Hp.
    + left. right. exists l. split; [done|]. by apply (possibleRoutes_nil ep 0).
    + right. assert (k ∈ possibleRoutes ep 0 l) as Hin by (rewrite Hp; left).
      apply possibleRoutes_elem in Hin as (r & _ & Hlk & Hr).
      exists l, r. split; [done|]. split; [by eapply list_elem_of_lookup_2|done].
Qed.

(** C7. [Remove] of a route that is not in the table under its name
    (the name is absent, or the slice holds no identical element) closes
    the route, logs one error and returns: the mapping and the gauge are
    unchanged. *)
Theorem Remove_unknown_is_logged_noop (s : table) (state : R) :
  (m s !! GetName state = None
   ∨ ∃ routeList, m s !! GetName state = Some routeList ∧ state ∉ routeList) →
  m (Remove state s) = m s
  ∧ connectedRoutesGauge (Remove state s) = connectedRoutesGauge s
  ∧ ∃ format, effects (Remove state s)
              = effects s ++ [RouteClose state; Errorf format state].
Proof.
  unfold Remove. simpl. intros [Hnone|(routeList & Hl & Hnot)].
  - rewrite Hnone. simpl. repeat split; try done.
    eexists. by rewrite <- app_assoc.
  - rewrite Hl. rewrite (sliceIndex_absent routeList state Hnot).
    rewrite decide_True by done. simpl. repeat split; try done.
    eexists. by rewrite <- app_assoc.
Qed.

(** C5 (amended). [Add] followed by [Remove] of the same route puts the
    slice that was under the route's name back under that name (the
    empty slice when the name was not a key) and leaves every other
    name alone; every label of the gauge reads as before; and when the
    name was already a key the mapping is exactly the prior one. *)
Theorem Add_then_Remove_restores (s : table) (state : R) :
  m (Remove state (Add state s))
    = <[GetName state := default [] (m s !! GetName state)]> (m s)
  ∧ (∀ label, connectedRoutesGauge (Remove state (Add state s)) label
              = connectedRoutesGauge s label)
  ∧ (is_Some (m s !! GetName state) → m (Remove state (Add state s)) = m s).
Proof.
  split; [apply Remove_Add_m|]. split; [apply Remove_Add_gauge|].
  intros [l Hl]. rewrite Remove_Add_m, Hl. simpl. by apply insert_id.
Qed.

End table_facts.

(** Runs of the table on three sessions of one agent. *)
Example Remove_swaps_with_last :
  m (Remove Samples.route_A Samples.table_ABC) !! "a1"
  = Some [Samples.route_C; Samples.route_B]
  ∧ connectedRoutesGauge (Remove Samples.route_A Samples.table_ABC) "a1" = 2.
Proof. split; reflexivity. Qed.

Example possibleRoutes_skips_unconfigured :
  possibleRoutes Samples.search_prod 0
    [Samples.route_A; Samples.route_B; Samples.route_C] = [0%nat; 2%nat].
Proof. reflexivity. Qed.

Example findService_draws_among_candidates :
  findService Samples.table_ABC Samples.search_prod 4
    = Return (Some Samples.route_A, None)
  ∧ findService Samples.table_ABC Samples.search_prod 5
    = Return (Some Samples.route_C, None).
Proof. split; reflexivity. Qed.

Example Send_unknown_name :
  Send {| SearchName := "a2"; EndpointType := "kubernetes";
          EndpointName := "prod"; Session := "" |}
       Samples.ping 0 Samples.table_ABC
  = (Return ("", Some (errorf no_routes_connected
                         {| SearchName := "a2"; EndpointType := "kubernetes";
                            EndpointName := "prod"; Session := "" |})),
     Samples.table_ABC).
Proof. reflexivity. Qed.

(** Witness for C1: one route with the endpoint, one search for it. *)
Lemma Send_no_route_or_session_witness :
  ∃ l r, m Samples.table_A !! "a1" = Some l ∧ r ∈ l
         ∧ HasEndpoint r "kubernetes" "prod" = true
         ∧ Send Samples.search_prod Samples.ping 7 Samples.table_A
           = (Return (GetSession r, None),
              emit [RouteSend r Samples.ping] Samples.table_A).
Proof.
  apply (@Send_no_route_or_session
           DirectlyConnectedRoute Tunnel.MessageWrapper
           DirectlyConnectedRoute_Route (λ _ _, eq_refl)
           Samples.table_A Samples.search_prod Samples.ping 7).
  exists [Samples.route_A], Samples.route_A.
  split; [reflexivity|]. split; [left|reflexivity].
Defined.

(** Witness for C7: removing a route from the empty table. *)
Lemma Remove_unknown_is_logged_noop_witness :
  m (Remove Samples.route_A Samples.empty_table) = m Samples.empty_table
  ∧ connectedRoutesGauge (Remove Samples.route_A Samples.empty_table)
    = connectedRoutesGauge Samples.empty_table
  ∧ ∃ format, effects (Remove Samples.route_A Samples.empty_table)
              = effects Samples.empty_table
                ++ [RouteClose Samples.route_A; Errorf format Samples.route_A].
Proof.
  apply (Remove_unknown_is_logged_noop Samples.empty_table Samples.route_A).
  left. reflexivity.
Defined.

(** Witness for C5: a second session under a name that is already a
    key. *)
Lemma Add_then_Remove_restores_witness :
  m (Remove Samples.route_B (Add Samples.route_B Samples.table_A))
  = m Samples.table_A.
Proof.
  apply (Add_then_Remove_restores Samples.table_A Samples.route_B).
  exists [Samples.route_A]. reflexivity.
Defined.

(** C5 as stated fails on the empty table: the name of the route stays
    behind as a key mapped to the empty slice. *)
Lemma Add_then_Remove_leaves_key :
  ¬ (m (Remove Samples.route_A (Add Samples.route_A Samples.empty_table))
       = m Samples.empty_table
     ∧ ∀ label,
         connectedRoutesGauge
           (Remove Samples.route_A (Add Samples.route_A Samples.empty_table)) label
         = connectedRoutesGauge Samples.empty_table label).
Proof.
  intros [Hm _].
  apply (f_equal (λ t : gmap string (list DirectlyConnectedRoute), t !! "a1")) in Hm.
  rewrite Remove_Add_m in Hm. simpl in Hm.
  rewrite lookup_insert_eq in Hm. discriminate Hm.
Qed.

Lemma endpoint_matches_true (ty nm : string) (e : Endpoint) :
  endpoint_matches ty nm e = true
  ↔ Configured e = true ∧ Type_ e = ty ∧ Name e = nm.
Proof.
  unfold endpoint_matches.
  rewrite !andb_true_iff, !bool_decide_eq_true. tauto.
Qed.

Lemma HasEndpoint_zero_matches (ep : Search) (r : DirectlyConnectedRoute) :
  HasEndpoint r (EndpointType ep) (EndpointName ep) = false
  ↔ zero_configured_matches ep r.
Proof.
  unfold zero_configured_matches. simpl. unfold DirectlyConnectedRoute_HasEndpoint.
  induction (route_Endpoints r) as [|e es IH]; [done|].
  simpl. rewrite filter_cons.
  destruct (decide (Configured e = true
                    ∧ Type_ e = EndpointType ep ∧ Name e = EndpointName ep))
    as [Hyes|Hno].
  - rewrite (proj2 (endpoint_matches_true _ _ e) Hyes). simpl.
    split; [done|lia].
  - destruct (endpoint_matches (EndpointType ep) (EndpointName ep) e) eqn:He.
    + by apply endpoint_matches_true in He.
    + exact IH.
Qed.

(** C4. A route with zero [configured = true] endpoints of the searched
    type and name is never the one [findService] selects; and when every
    route under the searched name is such a route, the result is the
    no-route error and [Send] hands the message to nobody, although
    routes under that name exist. *)
Theorem unconfigured_routes_are_excluded
    (s : ConnectedRoutes DirectlyConnectedRoute Tunnel.MessageWrapper)
    (ep : Search) (message : Tunnel.MessageWrapper) (draw : nat) :
  (∀ r, zero_configured_matches ep r →
        findService s ep draw ≠ Return (Some r, None))
  ∧ (∀ l, m s !! SearchName ep = Some l → l ≠ [] →
          Forall (zero_configured_matches ep) l →
          findService s ep draw = Return (None, Some (errorf no_such_route ep))
          ∧ is_no_route (errorf no_such_route ep)
          ∧ Send ep message draw s
            = (Return ("", Some (errorf no_such_route ep)), s)).
Proof.
  split.
  - intros r Hzero Hsel.
    apply findService_selected in Hsel as (l & _ & _ & Hr).
    apply HasEndpoint_zero_matches in Hzero. congruence.
  - intros l Hl Hne Hall.
    assert (findService s ep draw = Return (None, Some (errorf no_such_route ep)))
      as Hf.
    { unfold findService. rewrite Hl.
      rewrite decide_False by (by intros ?%length_zero_iff_nil).
      replace (possibleRoutes ep 0 l) with (@nil nat); [done|].
      symmetry. apply possibleRoutes_nil. intros r Hr.
      apply HasEndpoint_zero_matches.
      by apply (proj1 (Forall_forall _ _) Hall). }
    split; [done|]. split; [by right|]. unfold Send. by rewrite Hf.
Qed.

(** Witness for C4: one session whose only endpoint is unconfigured. *)
Lemma unconfigured_routes_are_excluded_witness :
  findService Samples.table_B Samples.search_prod 3
    ≠ Return (Some Samples.route_B, None)
  ∧ (findService Samples.table_B Samples.search_prod 3
       = Return (None, Some (errorf no_such_route Samples.search_prod))
     ∧ is_no_route (errorf no_such_route Samples.search_prod)
     ∧ Send Samples.search_prod Samples.ping 3 Samples.table_B
       = (Return ("", Some (errorf no_such_route Samples.search_prod)),
          Samples.table_B)).
Proof.
  destruct (unconfigured_routes_are_excluded
              Samples.table_B Samples.search_prod Samples.ping 3) as [H1 H2].
  split.
  - apply H1. reflexivity.
  - apply (H2 [Samples.route_B]); [reflexivity|discriminate|].
    constructor; [reflexivity|constructor].
Defined.

End TunnelrouteFacts.

(* ================================================================== *)
(** * Facts about the Kubernetes executor *)
(* ================================================================== *)
Module ExecutorFacts.
Import Tunnel TunnelHelpers.

Lemma frames_app (es1 es2 : list Effect) :
  frames (es1 ++ es2) = frames es1 ++ frames es2.
Proof.
  induction es1 as [|e es1 IH]; [done|].
  destruct e; simpl; by rewrite ?IH.
Qed.

Lemma body_end_after_nil_reads (reads rest : list HTTP.ReadResult) :
  Forall (λ rd, HTTP.read_err rd = HTTP.err_nil) reads →
  Agent.body_end (reads ++ rest) = Agent.body_end rest.
Proof.
  induction 1 as [|rd reads Hrd _ IH]; [done|]. simpl. by rewrite Hrd.
Qed.

(** The loop emits data chunks only, then the terminator its ending
    calls for. *)
Lemma readLoop_shape (id : string) (reads : list HTTP.ReadResult) :
  Agent.fits_buffer reads →
  ∃ chunks, Forall (is_data_chunk id) chunks
            ∧ frames (Agent.readLoop id reads).1 = chunks ++ Agent.terminator id reads
            ∧ (Agent.readLoop id reads).2 = Agent.standing reads.
Proof.
  unfold Agent.terminator, Agent.standing.
  induction 1 as [|rd reads Hrd Hfits IH].
  - exists []. done.
  - destruct IH as (chunks & Hchunks & Hframes & Hst). simpl.
    rewrite decide_False by lia.
    set (sent := if decide (0 < Z.of_nat (length (HTTP.read_data rd)))
                 then [Dataflow (makeChunkedResponse id (HTTP.read_data rd))]
                 else []).
    assert (Forall (is_data_chunk id) (frames sent)) as Hsent.
    { unfold sent. case_decide; [|constructor].
      constructor; [|constructor]. exists (HTTP.read_data rd). split; [done|lia]. }
    destruct (HTTP.read_err rd) eqn:Herr.
    + destruct (Agent.readLoop id reads) as [more st]. simpl in *.
      exists (frames sent ++ chunks). split; [by apply Forall_app|].
      rewrite frames_app, Hframes, <- app_assoc. done.
    + exists (frames sent). split; [done|]. simpl. by rewrite frames_app.
    + exists (frames sent). split; [done|]. simpl. by rewrite app_nil_r.
    + exists (frames sent). split; [done|]. simpl. by rewrite frames_app.
Qed.

(** A read error other than end of file or cancellation leaves the loop
    exactly as an end of file after the same bytes does. *)
Lemma readLoop_error_as_EOF
    (id : string) (reads : list HTTP.ReadResult) (data : list byte) (msg : string) :
  Agent.readLoop id
    (reads ++ [{| HTTP.read_data := data; HTTP.read_err := HTTP.err_other msg |}])
  = Agent.readLoop id
      (reads ++ [{| HTTP.read_data := data; HTTP.read_err := HTTP.io_EOF |}]).
Proof.
  induction reads as [|rd reads IH]; [done|].
  simpl. by rewrite IH.
Qed.

Section executor_facts.
Variable CanonicalMIMEHeaderKey : string → string.
Variable http_NewRequestWithContext :
  string → string → list byte → HTTP.Request + string.
Variable client_Do : HTTP.Client → HTTP.Request → HTTP.Response + string.
Variable tunnel_CopyHeaders :
  list HttpHeader → HTTP.Header → HTTP.Header * option string.
Variable tunnel_RunHTTPRequest :
  HTTP.Client → OpenHTTPTunnelRequest → HTTP.Request → string → list MessageWrapper.

Abbreviation executeHTTPRequest :=
  (Agent.executeHTTPRequest
     CanonicalMIMEHeaderKey http_NewRequestWithContext client_Do).
Abbreviation ExecuteHTTPRequest :=
  (Serviceconfig.ExecuteHTTPRequest
     CanonicalMIMEHeaderKey http_NewRequestWithContext
     tunnel_CopyHeaders tunnel_RunHTTPRequest).
Abbreviation outbound := (Agent.outbound CanonicalMIMEHeaderKey).

Lemma executeHTTPRequest_answered
    (ke : Agent.KubernetesEndpoint) (req : OpenHTTPTunnelRequest)
    (httpRequest : HTTP.Request) (get : HTTP.Response) :
  http_NewRequestWithContext
    (req_method req) (Agent.serverURL (Agent.f ke) +:+ req_URI req) (req_body req)
    = inl httpRequest →
  client_Do (Agent.make_client (Agent.makeServerContextFields ke))
            (outbound (Agent.makeServerContextFields ke) req httpRequest)
    = inl get →
  frames (executeHTTPRequest ke req).1
    = makeResponse (req_id req) get
      :: frames (Agent.readLoop (req_id req) (HTTP.Body get)).1
  ∧ (executeHTTPRequest ke req).2
    = (Agent.readLoop (req_id req) (HTTP.Body get)).2.
Proof.
  unfold Agent.executeHTTPRequest. simpl. intros -> ->.
  destruct (Agent.readLoop (req_id req) (HTTP.Body get)) as [sent st].
  simpl. rewrite frames_app. split; [|done].
  destruct st; simpl; by rewrite app_nil_r.
Qed.

(** C2 (amended). When the outbound call succeeds and the body reader
    keeps the [io.Reader] contract, the frames of the transaction are:
    the response-header frame first, then data chunks each with a
    non-empty body of at most 10240 bytes, then one zero-length chunk
    when the body ends with end of file or with a read error; when the
    read is cancelled nothing follows the data chunks, and while no
    read has failed yet the executor is still reading. *)
Theorem executeHTTPRequest_frame_sequence
    (ke : Agent.KubernetesEndpoint) (req : OpenHTTPTunnelRequest)
    (httpRequest : HTTP.Request) (get : HTTP.Response) :
  http_NewRequestWithContext
    (req_method req) (Agent.serverURL (Agent.f ke) +:+ req_URI req) (req_body req)
    = inl httpRequest →
  client_Do (Agent.make_client (Agent.makeServerContextFields ke))
            (outbound (Agent.makeServerContextFields ke) req httpRequest)
    = inl get →
  Agent.fits_buffer (HTTP.Body get) →
  ∃ chunks,
    Forall (is_data_chunk (req_id req)) chunks
    ∧ is_response (req_id req) (makeResponse (req_id req) get)
    ∧ frames (executeHTTPRequest ke req).1
      = makeResponse (req_id req) get
        :: chunks ++ Agent.terminator (req_id req) (HTTP.Body get)
    ∧ (executeHTTPRequest ke req).2 = Agent.standing (HTTP.Body get).
Proof.
  intros Hnew Hdo Hfits.
  destruct (executeHTTPRequest_answered ke req httpRequest get Hnew Hdo)
    as [Hframes Hst].
  destruct (readLoop_shape (req_id req) (HTTP.Body get) Hfits)
    as (chunks & Hchunks & Hloop & Hstanding).
  exists chunks. split; [done|]. split; [by eexists|].
  rewrite Hframes, Hloop, Hst, Hstanding. done.
Qed.

(** C6. When building the outbound request fails, or the outbound call
    fails, the executor puts exactly one frame on the channel, the
    synthesized 502 response carrying the transaction id, and returns.
    The later [ExecuteHTTPRequest] does the same when building the
    request or copying the headers fails. *)
Theorem failure_sends_one_bad_gateway
    (ke : Agent.KubernetesEndpoint) (ske : Serviceconfig.KubernetesEndpoint)
    (req : OpenHTTPTunnelRequest) :
  let bad_gateway :=
    HttpTunnelControl_ (HttpTunnelResponse_
      {| resp_id := req_id req; resp_status := 502;
         resp_headers := []; resp_contentLength := 0 |}) in
  (∀ err,
     http_NewRequestWithContext
       (req_method req) (Agent.serverURL (Agent.f ke) +:+ req_URI req) (req_body req)
       = inr err →
     frames (executeHTTPRequest ke req).1 = [bad_gateway]
     ∧ (executeHTTPRequest ke req).2 = Returned)
  ∧ (∀ httpRequest err,
       http_NewRequestWithContext
         (req_method req) (Agent.serverURL (Agent.f ke) +:+ req_URI req) (req_body req)
         = inl httpRequest →
       client_Do (Agent.make_client (Agent.makeServerContextFields ke))
                 (outbound (Agent.makeServerContextFields ke) req httpRequest)
         = inr err →
       frames (executeHTTPRequest ke req).1 = [bad_gateway]
       ∧ (executeHTTPRequest ke req).2 = Returned)
  ∧ (∀ err,
       http_NewRequestWithContext
         (req_method req)
         (Agent.serverURL (Serviceconfig.f ske) +:+ req_URI req) (req_body req)
         = inr err →
       frames (ExecuteHTTPRequest ske req) = [bad_gateway])
  ∧ (∀ httpRequest h err,
       http_NewRequestWithContext
         (req_method req)
         (Agent.serverURL (Serviceconfig.f ske) +:+ req_URI req) (req_body req)
         = inl httpRequest →
       tunnel_CopyHeaders (req_headers req) (HTTP.RequestHeader httpRequest)
         = (h, Some err) →
       frames (ExecuteHTTPRequest ske req) = [bad_gateway]).
Proof.
  intros bad_gateway. split; [|split; [|split]].
  - intros err Hnew. unfold Agent.executeHTTPRequest. simpl. by rewrite Hnew.
  - intros httpRequest err Hnew Hdo.
    unfold Agent.executeHTTPRequest. simpl. by rewrite Hnew, Hdo.
  - intros err Hnew.
    unfold Serviceconfig.ExecuteHTTPRequest. simpl. by rewrite Hnew.
  - intros httpRequest h err Hnew Hcopy.
    unfold Serviceconfig.ExecuteHTTPRequest. simpl. by rewrite Hnew, Hcopy.
Qed.

(** C10. When the outbound call succeeded and a read of the body fails
    with an error other than end of file or cancellation, the executor
    ends the transaction with a zero-length chunk and returns: after the
    response-header frame come data chunks and that chunk, no second
    response frame, and the loop leaves exactly the effects it leaves
    when the same bytes end with end of file. *)
Theorem read_error_ends_like_end_of_file
    (ke : Agent.KubernetesEndpoint) (req : OpenHTTPTunnelRequest)
    (httpRequest : HTTP.Request) (get : HTTP.Response)
    (reads : list HTTP.ReadResult) (data : list byte) (msg : string) :
  http_NewRequestWithContext
    (req_method req) (Agent.serverURL (Agent.f ke) +:+ req_URI req) (req_body req)
    = inl httpRequest →
  client_Do (Agent.make_client (Agent.makeServerContextFields ke))
            (outbound (Agent.makeServerContextFields ke) req httpRequest)
    = inl get →
  HTTP.Body get
    = reads ++ [{| HTTP.read_data := data; HTTP.read_err := HTTP.err_other msg |}] →
  Forall (λ rd, HTTP.read_err rd = HTTP.err_nil) reads →
  Agent.fits_buffer (HTTP.Body get) →
  (∃ chunks,
     Forall (is_data_chunk (req_id req)) chunks
     ∧ frames (executeHTTPRequest ke req).1
       = makeResponse (req_id req) get
         :: chunks ++ [makeChunkedResponse (req_id req) emptyBytes])
  ∧ (executeHTTPRequest ke req).2 = Returned
  ∧ Agent.readLoop (req_id req) (HTTP.Body get)
    = Agent.readLoop (req_id req)
        (reads ++ [{| HTTP.read_data := data; HTTP.read_err := HTTP.io_EOF |}]).
Proof.
  intros Hnew Hdo Hbody Hnil Hfits.
  destruct (executeHTTPRequest_answered ke req httpRequest get Hnew Hdo)
    as [Hframes Hst].
  destruct (readLoop_shape (req_id req) (HTTP.Body get) Hfits)
    as (chunks & Hchunks & Hloop & Hstanding).
  assert (Agent.body_end (HTTP.Body get) = Some (HTTP.err_other msg)) as Hend.
  { rewrite Hbody. by rewrite body_end_after_nil_reads. }
  unfold Agent.terminator in Hloop. unfold Agent.standing in Hstanding.
  rewrite Hend in Hloop, Hstanding.
  split; [|split].
  - exists chunks. split; [done|]. by rewrite Hframes, Hloop.
  - by rewrite Hst.
  - rewrite Hbody. apply readLoop_error_as_EOF.
Qed.

End executor_facts.

(** Runs of the executor on the sample bodies. *)
Example frames_of_complete_body :
  frames (Agent.executeHTTPRequest Samples.canonical Samples.new_request
            (Samples.answers (Samples.response_with Samples.body_complete))
            Samples.endpoint_0 Samples.request_0).1
  = [makeResponse "t1" (Samples.response_with Samples.body_complete);
     makeChunkedResponse "t1" [x7b; x7d];
     makeChunkedResponse "t1" []].
Proof. reflexivity. Qed.

Example frames_of_cancelled_body :
  Agent.executeHTTPRequest Samples.canonical Samples.new_request
    (Samples.answers (Samples.response_with Samples.body_cancelled))
    Samples.endpoint_0 Samples.request_0
  = ([RegisterCancelFunction "t1";
      Dataflow (makeResponse "t1" (Samples.response_with Samples.body_cancelled));
      Dataflow (makeChunkedResponse "t1" [x7b]);
      UnregisterCancelFunction "t1"],
     Returned).
Proof. reflexivity. Qed.

Example frames_when_server_refuses :
  Agent.executeHTTPRequest Samples.canonical Samples.new_request
    Samples.refuses Samples.endpoint_0 Samples.request_0
  = ([RegisterCancelFunction "t1";
      Dataflow (MakeBadGatewayResponse "t1");
      UnregisterCancelFunction "t1"],
     Returned).
Proof. reflexivity. Qed.

Example outbound_request_carries_token :
  HTTP.RequestHeader
    (Agent.outbound Samples.canonical Samples.context_0 Samples.request_0
       {| HTTP.Method := "GET"; HTTP.URL := "https://kube.local/v1/pods";
          HTTP.RequestHeader := ∅; HTTP.RequestBody := [] |})
  = <["Authorization" := ["Bearer secret"]]>
      (<["Accept" := ["application/json"]]> ∅).
Proof. reflexivity. Qed.

(** Witness for C2: a two-byte body that ends with end of file. *)
Lemma executeHTTPRequest_frame_sequence_witness :
  ∃ chunks,
    Forall (is_data_chunk "t1") chunks
    ∧ is_response "t1"
        (makeResponse "t1" (Samples.response_with Samples.body_complete))
    ∧ frames (Agent.executeHTTPRequest Samples.canonical Samples.new_request
                (Samples.answers (Samples.response_with Samples.body_complete))
                Samples.endpoint_0 Samples.request_0).1
      = makeResponse "t1" (Samples.response_with Samples.body_complete)
        :: chunks ++ [makeChunkedResponse "t1" emptyBytes]
    ∧ (Agent.executeHTTPRequest Samples.canonical Samples.new_request
         (Samples.answers (Samples.response_with Samples.body_complete))
         Samples.endpoint_0 Samples.request_0).2 = Returned.
Proof.
  apply (executeHTTPRequest_frame_sequence
           Samples.canonical Samples.new_request
           (Samples.answers (Samples.response_with Samples.body_complete))
           Samples.endpoint_0 Samples.request_0
           {| HTTP.Method := "GET"; HTTP.URL := "https://kube.local/v1/pods";
              HTTP.RequestHeader := ∅; HTTP.RequestBody := [] |}
           (Samples.response_with Samples.body_complete)).
  - reflexivity.
  - reflexivity.
  - repeat constructor; simpl; lia.
Defined.

(** C2 as stated fails when the transaction is cancelled while the body
    is read: the executor returns after the header frame and one data
    chunk, and no zero-length chunk ends the sequence. *)
Lemma cancelled_body_has_no_terminator :
  let run :=
    Agent.executeHTTPRequest Samples.canonical Samples.new_request
      (Samples.answers (Samples.response_with Samples.body_cancelled))
      Samples.endpoint_0 Samples.request_0 in
  run.2 = Returned
  ∧ ¬ ∃ chunks,
        Forall (is_data_chunk "t1") chunks
        ∧ frames run.1
          = makeResponse "t1" (Samples.response_with Samples.body_cancelled)
            :: chunks ++ [makeChunkedResponse "t1" emptyBytes].
Proof.
  split; [reflexivity|].
  intros (chunks & _ & Heq). vm_compute in Heq.
  destruct chunks as [|c1 [|c2 chunks]]; simpl in Heq; discriminate Heq.
Qed.

(** Witness for C6: the request cannot be built. *)
Lemma failure_sends_one_bad_gateway_witness :
  frames (Agent.executeHTTPRequest Samples.canonical Samples.new_request_fails
            Samples.refuses Samples.endpoint_0 Samples.request_0).1
    = [MakeBadGatewayResponse "t1"]
  ∧ (Agent.executeHTTPRequest Samples.canonical Samples.new_request_fails
       Samples.refuses Samples.endpoint_0 Samples.request_0).2 = Returned.
Proof.
  destruct (failure_sends_one_bad_gateway
              Samples.canonical Samples.new_request_fails Samples.refuses
              (λ _ h, (h, None)) (λ _ _ _ _, [])
              Samples.endpoint_0 Samples.endpoint_1 Samples.request_0)
    as [Hbuild _].
  apply (Hbuild "net/http: invalid method"). reflexivity.
Defined.

(** Witness for C10: one byte, then the connection breaks. *)
Lemma read_error_ends_like_end_of_file_witness :
  (∃ chunks,
     Forall (is_data_chunk "t1") chunks
     ∧ frames (Agent.executeHTTPRequest Samples.canonical Samples.new_request
                 (Samples.answers (Samples.response_with Samples.body_broken))
                 Samples.endpoint_0 Samples.request_0).1
       = makeResponse "t1" (Samples.response_with Samples.body_broken)
         :: chunks ++ [makeChunkedResponse "t1" emptyBytes])
  ∧ (Agent.executeHTTPRequest Samples.canonical Samples.new_request
       (Samples.answers (Samples.response_with Samples.body_broken))
       Samples.endpoint_0 Samples.request_0).2 = Returned
  ∧ Agent.readLoop "t1" Samples.body_broken
    = Agent.readLoop "t1"
        ([{| HTTP.read_data := [x7b]; HTTP.read_err := HTTP.err_nil |}]
           ++ [{| HTTP.read_data := []; HTTP.read_err := HTTP.io_EOF |}]).
Proof.
  apply (read_error_ends_like_end_of_file
           Samples.canonical Samples.new_request
           (Samples.answers (Samples.response_with Samples.body_broken))
           Samples.endpoint_0 Samples.request_0
           {| HTTP.Method := "GET"; HTTP.URL := "https://kube.local/v1/pods";
              HTTP.RequestHeader := ∅; HTTP.RequestBody := [] |}
           (Samples.response_with Samples.body_broken)
           [{| HTTP.read_data := [x7b]; HTTP.read_err := HTTP.err_nil |}]
           [] "unexpected EOF").
  - reflexivity.
  - reflexivity.
  - reflexivity.
  - repeat constructor.
  - repeat constructor; simpl; lia.
Defined.

End ExecutorFacts.

(* ================================================================== *)
(** * Facts about the credential context *)
(* ================================================================== *)
Module ContextFacts.

Local Ltac differs :=
  split; [discriminate|]; intros (?&?&?&?&?&?); simplify_eq; done.

Local Ltac first_entries c1 c2 :=
  destruct (TLS.Certificate_ c1 !! 0%nat) as [d1|],
           (TLS.Certificate_ c2 !! 0%nat) as [d2|]; simpl;
  [ case_bool_decide; simpl;
    [ subst; split; [|done];
      intros _; do 4 (split; [done|]); split; [done|]; by eexists
    | split; [discriminate|];
      intros (_&_&_&_&_&der&?&?); simplify_eq ]
  | split; [discriminate|]; intros (_&_&_&_&_&der&?&?); simplify_eq
  | split; [discriminate|]; intros (_&_&_&_&_&der&?&?); simplify_eq
  | split; [discriminate|]; intros (_&_&_&_&_&der&?&?); simplify_eq ].

Local Ltac client_part cc1 cc2 :=
  destruct cc1 as [c1|], cc2 as [c2|]; simpl;
  [ first_entries c1 c2
  | split; [discriminate|]; intros (_&_&_&_&_&[])
  | split; [discriminate|]; intros (_&_&_&_&_&[])
  | split; [|done]; intros _; do 4 (split; [done|]); split; done ].

Lemma Agent_isSameAs_true (a b : Agent.kubeContext) :
  Agent.isSameAs a b = Return true ↔ Agent.same_context a b.
Proof.
  destruct a as [u1 s1 ca1 cc1 t1 i1], b as [u2 s2 ca2 cc2 t2 i2].
  unfold Agent.isSameAs, Agent.same_context, X509.Equal. simpl.
  destruct (decide (u1 = u2)) as [->|?];
    [|rewrite bool_decide_eq_true_2 by done; simpl; differs].
  rewrite (bool_decide_eq_false_2 (u2 ≠ u2)) by (intros ?; done). simpl.
  destruct (decide (s1 = s2)) as [->|?];
    [|rewrite bool_decide_eq_true_2 by done; simpl; differs].
  rewrite (bool_decide_eq_false_2 (s2 ≠ s2)) by (intros ?; done). simpl.
  destruct (decide (t1 = t2)) as [->|?];
    [|rewrite bool_decide_eq_true_2 by done; simpl; differs].
  rewrite (bool_decide_eq_false_2 (t2 ≠ t2)) by (intros ?; done). simpl.
  destruct (decide (i1 = i2)) as [->|?];
    [|rewrite bool_decide_eq_true_2 by done; simpl; differs].
  rewrite (bool_decide_eq_false_2 (i2 ≠ i2)) by (intros ?; done). simpl.
  destruct ca1 as [ca1|], ca2 as [ca2|]; simpl.
  - case_bool_decide as Hraw; simpl.
    + client_part cc1 cc2.
    + split; [discriminate|]. intros (_&_&_&_&?&_). done.
  - split; [discriminate|]. intros (_&_&_&_&[]&_).
  - split; [discriminate|]. intros (_&_&_&_&[]&_).
  - client_part cc1 cc2.
Qed.

(** The two versions of [isSameAs] compute the same result. *)
Lemma isSameAs_versions_agree (a b : Agent.kubeContext) :
  Serviceconfig.isSameAs a b = Agent.isSameAs a b.
Proof.
  unfold Serviceconfig.isSameAs, Agent.isSameAs.
  destruct (_ || _ || _ || _); [done|].
  destruct (Agent.serverCA a) as [ca1|], (Agent.serverCA b) as [ca2|];
    simpl; try done.
  - destruct (X509.Equal ca1 ca2); simpl; [|done].
    destruct (Agent.clientCert a) as [c1|], (Agent.clientCert b) as [c2|];
      simpl; try done.
    destruct (TLS.Certificate_ c1 !! 0%nat), (TLS.Certificate_ c2 !! 0%nat);
      try done.
    by case_bool_decide.
  - destruct (Agent.clientCert a) as [c1|], (Agent.clientCert b) as [c2|];
      simpl; try done.
    destruct (TLS.Certificate_ c1 !! 0%nat), (TLS.Certificate_ c2 !! 0%nat);
      try done.
    by case_bool_decide.
Qed.

(** C8. [isSameAs], in both versions of the file, returns true exactly
    when the two contexts have the same username, server URL, token and
    insecure flag, CA certificates both absent or with identical bytes,
    and client certificates both absent or with identical first DER
    entry. A round of the refresh worker that returns either found the
    comparison false and stored the loaded context, or found it true
    and left the endpoint as it was. *)
Theorem isSameAs_is_structural (a b : Agent.kubeContext) :
  (Agent.isSameAs a b = Return true ↔ Agent.same_context a b)
  ∧ (Serviceconfig.isSameAs a b = Return true ↔ Agent.same_context a b)
  ∧ (∀ ke ke',
       Agent.f ke = a →
       Agent.updateServerContextTicker_round b ke = Return ke' →
       (Agent.isSameAs a b = Return false ∧ Agent.f ke' = b)
       ∨ (Agent.isSameAs a b = Return true ∧ ke' = ke))
  ∧ (∀ ke ke',
       Serviceconfig.f ke = a →
       Serviceconfig.updateServerContextTicker_round b ke = Return ke' →
       (Serviceconfig.isSameAs a b = Return false ∧ Serviceconfig.f ke' = b)
       ∨ (Serviceconfig.isSameAs a b = Return true ∧ ke' = ke)).
Proof.
  split; [apply Agent_isSameAs_true|].
  split; [rewrite isSameAs_versions_agree; apply Agent_isSameAs_true|].
  split.
  - intros ke ke' <-. unfold Agent.updateServerContextTicker_round.
    destruct (Agent.isSameAs (Agent.f ke) b) as [[|]|]; simpl; [| |done].
    + intros [= <-]. by right.
    + intros [= <-]. by left.
  - intros ke ke' <-. unfold Serviceconfig.updateServerContextTicker_round.
    destruct (Serviceconfig.isSameAs (Serviceconfig.f ke) b) as [[|]|];
      simpl; [| |done].
    + intros [= <-]. by right.
    + intros [= <-]. by left.
Qed.

Example isSameAs_panics_on_empty_chain :
  let with_chain chain :=
    {| Agent.username := "admin"; Agent.serverURL := "https://kube.local";
       Agent.serverCA := None;
       Agent.clientCert := Some {| TLS.Certificate_ := chain |};
       Agent.token := ""; Agent.insecure := false |} in
  Agent.isSameAs (with_chain []) (with_chain [[x30]]) = Panic "index out of range"
  ∧ Agent.isSameAs (with_chain [[x30]; [x31]]) (with_chain [[x30]]) = Return true
  ∧ Agent.isSameAs (with_chain [[x31]]) (with_chain [[x30]]) = Return false.
Proof. repeat split. Qed.

(** Witness for C8: a rotated token is a different context, and the
    worker stores it. *)
Lemma isSameAs_is_structural_witness :
  (Agent.isSameAs Samples.context_0 Samples.context_1 = Return false
   ∧ Agent.f {| Agent.f := Samples.context_1 |} = Samples.context_1)
  ∨ (Agent.isSameAs Samples.context_0 Samples.context_1 = Return true
     ∧ {| Agent.f := Samples.context_1 |} = Samples.endpoint_0).
Proof.
  destruct (isSameAs_is_structural Samples.context_0 Samples.context_1)
    as (_ & _ & Hround & _).
  apply (Hround Samples.endpoint_0 {| Agent.f := Samples.context_1 |});
    reflexivity.
Defined.

End ContextFacts.

(* ================================================================== *)
(** * Facts about the in-pod service account *)
(* ================================================================== *)
Module ServiceAccountFacts.

Lemma length_zero_empty (s : string) : String.length s = 0%nat ↔ s = "".
Proof. by destruct s. Qed.

Section load.
Variable pem_Decode : list byte → option (list byte).
Variable x509_ParseCertificate : list byte → X509.Certificate + string.
Variable files : gmap string (list byte).
Variable environ : gmap string string.

Abbreviation loadServiceAccount :=
  (Agent.loadServiceAccount pem_Decode x509_ParseCertificate files environ).

(** C9. [loadServiceAccount] succeeds exactly when the token and CA
    files are readable, the CA file decodes and parses, and both
    environment variables are set to non-empty values; the context it
    returns then has username [ServiceAccount], the URL
    [https://host:port], the parsed CA certificate, the token of the
    file and [insecure = true], so that the HTTP client built from it
    skips server verification although the CA is in its trust pool. The
    later version of the function is the same function. *)
Theorem loadServiceAccount_context (c : Agent.kubeContext) :
  (loadServiceAccount = Return (Some c, None)
   ↔ ∃ token_bytes ca_bytes der cert host port,
       files !! Agent.token_path = Some token_bytes
       ∧ files !! Agent.ca_path = Some ca_bytes
       ∧ pem_Decode ca_bytes = Some der
       ∧ x509_ParseCertificate der = inl cert
       ∧ environ !! "KUBERNETES_SERVICE_HOST" = Some host ∧ host ≠ ""
       ∧ environ !! "KUBERNETES_SERVICE_PORT" = Some port ∧ port ≠ ""
       ∧ c = {| Agent.username := "ServiceAccount";
                Agent.serverURL := "https://" +:+ host +:+ ":" +:+ port;
                Agent.serverCA := Some cert;
                Agent.clientCert := None;
                Agent.token := String.string_of_list_byte token_bytes;
                Agent.insecure := true |})
  ∧ (loadServiceAccount = Return (Some c, None) →
     Agent.insecure c = true
     ∧ TLS.InsecureSkipVerify
         (HTTP.TLSClientConfig (HTTP.Transport_ (Agent.make_client c))) = true
     ∧ ∃ cert, Agent.serverCA c = Some cert
               ∧ TLS.RootCAs
                   (HTTP.TLSClientConfig (HTTP.Transport_ (Agent.make_client c)))
                 = Some [cert])
  ∧ Serviceconfig.loadServiceAccount pem_Decode x509_ParseCertificate files environ
    = loadServiceAccount.
Proof.
  assert (loadServiceAccount = Return (Some c, None)
   → ∃ token_bytes ca_bytes der cert host port,
       files !! Agent.token_path = Some token_bytes
       ∧ files !! Agent.ca_path = Some ca_bytes
       ∧ pem_Decode ca_bytes = Some der
       ∧ x509_ParseCertificate der = inl cert
       ∧ environ !! "KUBERNETES_SERVICE_HOST" = Some host ∧ host ≠ ""
       ∧ environ !! "KUBERNETES_SERVICE_PORT" = Some port ∧ port ≠ ""
       ∧ c = {| Agent.username := "ServiceAccount";
                Agent.serverURL := "https://" +:+ host +:+ ":" +:+ port;
                Agent.serverCA := Some cert;
                Agent.clientCert := None;
                Agent.token := String.string_of_list_byte token_bytes;
                Agent.insecure := true |}) as Hforward.
  { unfold Agent.loadServiceAccount, Agent.ReadFile, Agent.Getenv.
    destruct (files !! Agent.token_path) as [token_bytes|]; [|done].
    destruct (files !! Agent.ca_path) as [ca_bytes|]; [|done].
    destruct (pem_Decode ca_bytes) as [der|] eqn:Hpem; [|done].
    destruct (x509_ParseCertificate der) as [cert|] eqn:Hparse; [|done].
    destruct (environ !! "KUBERNETES_SERVICE_PORT") as [port|]; simpl; [|done].
    case_decide as Hport; [done|].
    destruct (environ !! "KUBERNETES_SERVICE_HOST") as [host|]; simpl; [|done].
    case_decide as Hhost; [done|].
    intros [= <-]. exists token_bytes, ca_bytes, der, cert, host, port.
    rewrite length_zero_empty in Hport, Hhost. by repeat split. }
  split; [split; [exact Hforward|]|split].
  - intros (token_bytes & ca_bytes & der & cert & host & port
            & Ht & Hca & Hpem & Hparse & Hh & Hhne & Hp & Hpne & ->).
    unfold Agent.loadServiceAccount, Agent.ReadFile, Agent.Getenv.
    rewrite Ht, Hca, Hpem, Hparse, Hp, Hh. simpl.
    rewrite !decide_False by (by rewrite length_zero_empty). done.
  - intros Hload.
    destruct (Hforward Hload)
      as (token_bytes & ca_bytes & der & cert & host & port
          & _ & _ & _ & _ & _ & _ & _ & _ & ->).
    split; [done|]. split; [done|]. by exists cert.
  - reflexivity.
Qed.

End load.

Example loadServiceAccount_in_pod :
  Agent.loadServiceAccount Samples.pem_plain Samples.parse_plain
    Samples.pod_files Samples.pod_environ
  = Return (Some Samples.pod_context, None).
Proof. vm_compute. reflexivity. Qed.

Example loadServiceAccount_without_port :
  Agent.loadServiceAccount Samples.pem_plain Samples.parse_plain
    Samples.pod_files (<["KUBERNETES_SERVICE_HOST" := "10.0.0.1"]> ∅)
  = Return (None, Some (Agent.Errorf
      "unable to locate API server from KUBERNETES_SERVICE_PORT environment variable")).
Proof. vm_compute. reflexivity. Qed.

(** Witness for C9: a pod with a token, a CA file and both variables. *)
Lemma loadServiceAccount_context_witness :
  Agent.insecure Samples.pod_context = true
  ∧ TLS.InsecureSkipVerify
      (HTTP.TLSClientConfig
         (HTTP.Transport_ (Agent.make_client Samples.pod_context))) = true
  ∧ ∃ cert, Agent.serverCA Samples.pod_context = Some cert
            ∧ TLS.RootCAs
                (HTTP.TLSClientConfig
                   (HTTP.Transport_ (Agent.make_client Samples.pod_context)))
              = Some [cert].
Proof.
  apply (loadServiceAccount_context
           Samples.pem_plain Samples.parse_plain
           Samples.pod_files Samples.pod_environ Samples.pod_context).
  vm_compute. reflexivity.
Defined.

End ServiceAccountFacts.

(* ================================================================== *)
(** * Facts about the identity binding *)
(* ================================================================== *)
Module IdentityFacts.
Import Controller.

Section identity_facts.
Variable json_Unmarshal : string → CertificateName + string.

Abbreviation getAgentNameFromContext :=
  (Controller.getAgentNameFromContext json_Unmarshal).

(** Without a peer, without TLS credentials or without a verified
    chain the extraction fails with an unauthenticated status. *)
Lemma no_verified_chain_is_unauthenticated (ctx : Context) :
  peer ctx = None ∨ peer ctx = Some OtherAuthInfo
  ∨ peer ctx = Some (TLSInfo []) ∨ (∃ chains, peer ctx = Some (TLSInfo ([] :: chains))) →
  ∃ msg, getAgentNameFromContext ctx
         = ("", Some (status_Error codes_Unauthenticated msg)).
Proof.
  unfold Controller.getAgentNameFromContext.
  intros [->|[->|[->|[chains ->]]]]; by eexists.
Qed.

(** The extraction succeeds only on a verified leaf whose OU parses
    into a name with purpose [agent], and then returns its agent
    field. *)
Lemma extraction_succeeds_only_for_agents (ctx : Context) (name : string) :
  getAgentNameFromContext ctx = (name, None) →
  ∃ leaf chain chains ou ous names,
    peer ctx = Some (TLSInfo ((leaf :: chain) :: chains))
    ∧ X509.Subject_OrganizationalUnit leaf = ou :: ous
    ∧ json_Unmarshal ou = inl names
    ∧ Purpose names = CertificatePurposeAgent
    ∧ name = Agent names.
Proof.
  unfold Controller.getAgentNameFromContext, getAgentNameFromCertificate,
    GetCertificateNameFromCert.
  destruct (peer ctx) as [[[|[|leaf chain] chains]|]|]; try done.
  destruct (X509.Subject_OrganizationalUnit leaf) as [|ou ous] eqn:Hou; [done|].
  destruct (json_Unmarshal ou) as [names|] eqn:Hjson; [|done].
  case_bool_decide as Hpurpose; [done|].
  intros [= <-]. exists leaf, chain, chains, ou, ous, names.
  split; [done|]. split; [done|]. split; [done|]. split; [|done].
  by destruct (decide (Purpose names = CertificatePurposeAgent)).
Qed.

(** C3 (divergence). A verified leaf whose OU parses into a name with a
    purpose other than [agent] makes the extraction fail, but the error
    is the plain error of [fmt.Errorf], whose status code is [Unknown]
    and not [Unauthenticated]. *)
Theorem wrong_purpose_error_is_not_a_status
    (leaf : X509.Certificate) (chain : list X509.Certificate)
    (chains : list (list X509.Certificate))
    (ou : string) (ous : list string) (names : CertificateName) :
  X509.Subject_OrganizationalUnit leaf = ou :: ous →
  json_Unmarshal ou = inl names →
  Purpose names ≠ CertificatePurposeAgent →
  getAgentNameFromContext {| peer := Some (TLSInfo ((leaf :: chain) :: chains)) |}
    = ("", Some (fmt_Errorf "not an agent certificate"))
  ∧ status_Code (fmt_Errorf "not an agent certificate") = codes_Unknown
  ∧ status_Code (fmt_Errorf "not an agent certificate") ≠ codes_Unauthenticated.
Proof.
  intros Hou Hjson Hpurpose.
  unfold Controller.getAgentNameFromContext, getAgentNameFromCertificate,
    GetCertificateNameFromCert. simpl.
  rewrite Hou, Hjson. rewrite bool_decide_eq_true_2 by done. done.
Qed.

End identity_facts.

Example agent_certificate_is_accepted :
  Controller.getAgentNameFromContext Samples.unmarshal Samples.agent_peer
  = ("a1", None).
Proof. reflexivity. Qed.

Example unverified_peer_is_unauthenticated :
  Controller.getAgentNameFromContext Samples.unmarshal
    {| peer := Some (TLSInfo []) |}
  = ("", Some (status_Error codes_Unauthenticated
                 "could not verify peer certificate")).
Proof. reflexivity. Qed.

(** Witness for C3: a verified certificate issued for the control
    purpose. *)
Lemma wrong_purpose_error_is_not_a_status_witness :
  Controller.getAgentNameFromContext Samples.unmarshal Samples.control_peer
    = ("", Some (fmt_Errorf "not an agent certificate"))
  ∧ status_Code (fmt_Errorf "not an agent certificate") = codes_Unknown
  ∧ status_Code (fmt_Errorf "not an agent certificate") ≠ codes_Unauthenticated.
Proof.
  apply (wrong_purpose_error_is_not_a_status
           Samples.unmarshal Samples.control_cert [] []
           "{purpose:control,name:admin}" [] Samples.control_name).
  - reflexivity.
  - reflexivity.
  - discriminate.
Defined.

End IdentityFacts.

(* ================================================================== *)
(** * More facts about the route table *)
(* ================================================================== *)
Module TableFacts.
Import Tunnelroute Tunnelroute.ConnectedRoutes.



Section more_table_facts.
Context {R Message : Type} `{!Route R Message}.

Abbreviation table := (ConnectedRoutes R Message).

(** Swap-with-last and truncate takes out the entry at the index and
    keeps every other entry. *)
Lemma insert_swaps_out (l : list R) (k : nat) (x y : R) :
  l !! k = Some x → x :: <[k := y]> l ≡ₚ y :: l.
Proof.
  revert k. induction l as [|a l IH]; intros [|k] Hk; simplify_eq/=.
  - apply Permutation_swap.
  - etrans; [apply Permutation_swap|].
    etrans; [apply Permutation_skip, (IH k Hk)|]. apply Permutation_swap.
Qed.

Lemma swap_truncate_removes_one (l : list R) (k : nat) (x final : R) :
  l !! k = Some x →
  l !! (length l - 1)%nat = Some final →
  x :: take (length l - 1) (<[k := final]> l) ≡ₚ l.
Proof.
  intros Hk Hfinal.
  destruct (decide (l = [])) as [->|Hne]; [done|].
  destruct (exists_last Hne) as (pre & y & ->).
  rewrite length_app in *. simpl in *.
  replace (length pre + 1 - 1)%nat with (length pre) in * by lia.
  rewrite lookup_app_r in Hfinal by lia.
  rewrite Nat.sub_diag in Hfinal. simplify_eq/=.
  destruct (decide (k < length pre)%nat) as [Hlt|Hge].
  - rewrite lookup_app_l in Hk by done.
    rewrite insert_app_l by done.
    rewrite take_app_length' by (by rewrite length_insert).
    rewrite insert_swaps_out by done. apply Permutation_cons_append.
  - apply lookup_lt_Some in Hk as Hlen. rewrite length_app in Hlen. simpl in Hlen.
    assert (k = length pre + 0)%nat as -> by lia.
    rewrite lookup_app_r in Hk by lia.
    replace (length pre + 0 - length pre)%nat with 0%nat in Hk by lia.
    simplify_eq/=.
    rewrite insert_app_r. simpl. rewrite take_app_length.
    apply Permutation_cons_append.
Qed.

(** What [Remove] does to a route that is in the slice of its name. *)
Lemma Remove_present (s : table) (state : R) (l : list R) :
  m s !! GetName state = Some l →
  state ∈ l →
  ∃ l',
    state :: l' ≡ₚ l
    ∧ m (Remove state s) = <[GetName state := l']> (m s)
    ∧ connectedRoutesGauge (Remove state s)
      = gauge_add (GetName state) (-1) (connectedRoutesGauge s)
    ∧ effects (Remove state s)
      = effects s
        ++ [RouteClose state;
            Infow "remove route"
              [("destination", LStr (GetName state));
               ("sessionId", LStr (GetSession state));
               ("pathCount", LInt (Z.of_nat (length l')))]].
Proof.
  intros Hl Hin. unfold Remove. simpl. rewrite Hl.
  destruct (TunnelrouteFacts.sliceIndex_present l state Hin) as (k & Hk & Hlk).
  rewrite Hk. rewrite decide_False by lia. rewrite Nat2Z.id.
  destruct (l !! (length l - 1)%nat) as [final|] eqn:Hfinal.
  - eexists. split; [by apply swap_truncate_removes_one|].
    simpl. split; [done|]. split; [done|]. by rewrite <- app_assoc.
  - apply lookup_ge_None in Hfinal. apply lookup_lt_Some in Hlk. lia.
Qed.

(** What [Remove] does to a route that is not in the slice of its
    name. *)
Lemma Remove_unknown (s : table) (state : R) :
  (∀ l, m s !! GetName state = Some l → state ∉ l) →
  m (Remove state s) = m s
  ∧ connectedRoutesGauge (Remove state s) = connectedRoutesGauge s.
Proof.
  intros Hnot. unfold Remove. simpl.
  destruct (m s !! GetName state) as [l|] eqn:Hl; [|done].
  rewrite (TunnelrouteFacts.sliceIndex_absent l state (Hnot l eq_refl)).
  by rewrite decide_True.
Qed.

Lemma Send_reads_only (s : table) (ep : Search) (message : Message) (draw : nat) :
  m (Send ep message draw s).2 = m s
  ∧ connectedRoutesGauge (Send ep message draw s).2 = connectedRoutesGauge s.
Proof.
  unfold Send. destruct (findService s ep draw) as [[[r|] [e|]]|]; done.
Qed.


Lemma reachable_own_name (s : table) :
  reachable s →
  ∀ name l r, m s !! name = Some l → r ∈ l → GetName r = name.
Proof.
  induction 1 as [|state s _ IH|state s _ IH|ep message draw s _ IH];
    intros name l r Hl Hr.
  - simpl in Hl. by rewrite lookup_empty in Hl.
  - unfold Add in Hl. simpl in Hl.
    destruct (decide (name = GetName state)) as [->|Hne].
    + rewrite lookup_insert_eq in Hl. simplify_eq.
      apply elem_of_app in Hr as [Hr|Hr].
      * destruct (m s !! GetName state) as [l0|] eqn:Hl0; simpl in Hr.
        -- by eapply IH.
        -- by apply elem_of_nil in Hr.
      * by apply list_elem_of_singleton in Hr as ->.
    + rewrite lookup_insert_ne in Hl by done. by eapply IH.
  - destruct (m s !! GetName state) as [l0|] eqn:Hl0.
    + destruct (decide (state ∈ l0)) as [Hin|Hnot].
      * destruct (Remove_present s state l0 Hl0 Hin) as (l' & Hperm & Hm & _).
        rewrite Hm in Hl.
        destruct (decide (name = GetName state)) as [->|Hne].
        -- rewrite lookup_insert_eq in Hl. simplify_eq.
           apply (IH _ l0); [done|]. rewrite <- Hperm. by right.
        -- rewrite lookup_insert_ne in Hl by done. by eapply IH.
      * destruct (Remove_unknown s state) as [Hm _].
        { intros l1 Hl1. congruence. }
        rewrite Hm in Hl. by eapply IH.
    + destruct (Remove_unknown s state) as [Hm _].
      { intros l1 Hl1. congruence. }
      rewrite Hm in Hl. by eapply IH.
  - destruct (Send_reads_only s ep message draw) as [Hm _].
    rewrite Hm in Hl. by eapply IH.
Qed.

(** X3. In every reachable table a route is filed under its own name
    only: a search under one name never meets a route of another
    name. *)
Theorem routes_filed_under_own_name (s : table) :
  reachable s →
  ∀ name l r, m s !! name = Some l → r ∈ l → GetName r = name.
Proof. apply reachable_own_name. Qed.

(** X4. [Remove] of a route that is in the slice of its name takes out
    exactly one occurrence of it and keeps every other entry of that
    slice (in some order), leaves the other names alone, lowers the
    gauge of that name by one and of no other, and closes the route. *)
Theorem Remove_takes_out_one (s : table) (state : R) (l : list R) :
  m s !! GetName state = Some l →
  state ∈ l →
  ∃ l',
    m (Remove state s) !! GetName state = Some l'
    ∧ state :: l' ≡ₚ l
    ∧ (∀ name, name ≠ GetName state → m (Remove state s) !! name = m s !! name)
    ∧ connectedRoutesGauge (Remove state s) (GetName state)
      = connectedRoutesGauge s (GetName state) - 1
    ∧ (∀ name, name ≠ GetName state →
         connectedRoutesGauge (Remove state s) name = connectedRoutesGauge s name)
    ∧ RouteClose state ∈ effects (Remove state s).
Proof.
  intros Hl Hin.
  destruct (Remove_present s state l Hl Hin) as (l' & Hperm & Hm & Hg & He).
  exists l'. rewrite Hm, Hg, He. unfold gauge_add.
  split; [by rewrite lookup_insert_eq|]. split; [done|].
  split; [by intros name Hne; rewrite lookup_insert_ne|].
  split; [by rewrite decide_True; [lia|]|].
  split; [by intros name Hne; rewrite decide_False|].
  apply elem_of_app. right. left.
Qed.

(** X5. A route registered once is never selected again after its
    [Remove]: in a reachable table whose slice for the route's name has
    no duplicates, no search and no draw makes [findService] return the
    removed route. *)
Theorem removed_route_is_never_selected (s : table) (state : R) :
  reachable s →
  (∀ l, m s !! GetName state = Some l → NoDup l) →
  ∀ ep draw, findService (Remove state s) ep draw ≠ Return (Some state, None).
Proof.
  intros Hreach Hnodup ep draw Hsel.
  apply TunnelrouteFacts.findService_selected in Hsel as (l2 & Hl2 & Hin2 & _).
  assert (GetName state = SearchName ep) as Hname.
  { eapply (reachable_own_name (Remove state s)); [|done..].
    by constructor. }
  rewrite <- Hname in Hl2.
  destruct (m s !! GetName state) as [l|] eqn:Hl.
  - destruct (decide (state ∈ l)) as [Hin|Hnot].
    + destruct (Remove_present s state l Hl Hin) as (l' & Hperm & Hm & _).
      rewrite Hm, lookup_insert_eq in Hl2. simplify_eq.
      specialize (Hnodup l eq_refl). rewrite <- Hperm in Hnodup.
      by apply NoDup_cons in Hnodup as [? _].
    + destruct (Remove_unknown s state) as [Hm _].
      { intros l1 Hl1. congruence. }
      rewrite Hm in Hl2. congruence.
  - destruct (Remove_unknown s state) as [Hm _].
    { intros l1 Hl1. congruence. }
    rewrite Hm in Hl2. congruence.
Qed.

(** X6. After [Add] of a route that has the searched endpoint, a search
    under the route's name always finds a route with that endpoint,
    whatever is drawn; on a name that held no route before, it finds
    the added route itself. *)
Theorem added_route_is_found (s : table) (state : R) (ep : Search) (draw : nat) :
  SearchName ep = GetName state →
  HasEndpoint state (EndpointType ep) (EndpointName ep) = true →
  ∃ r, findService (Add state s) ep draw = Return (Some r, None)
       ∧ HasEndpoint r (EndpointType ep) (EndpointName ep) = true
       ∧ (default [] (m s !! GetName state) = [] → r = state).
Proof.
  intros Hname Hhas.
  destruct (TunnelrouteFacts.findService_candidate (Add state s) ep draw
              (default [] (m s !! GetName state) ++ [state]) state)
    as (r & Hin & Hr & Hf).
  - rewrite Hname. unfold Add. simpl. by rewrite lookup_insert_eq.
  - apply elem_of_app. right. left.
  - done.
  - exists r. split; [done|]. split; [done|].
    intros Hempty. rewrite Hempty in Hin.
    by apply list_elem_of_singleton in Hin.
Qed.

(** X7. [findService] and [Send] never panic: the drawn index and the
    selected index are always in range and a nil route is never sent
    to. [Send] leaves the map and the gauge as they are. *)
Theorem Send_never_panics
    (s : table) (ep : Search) (message : Message) (draw : nat) :
  (∀ why, findService s ep draw ≠ Panic why)
  ∧ (∀ why, (Send ep message draw s).1 ≠ Panic why)
  ∧ m (Send ep message draw s).2 = m s
  ∧ connectedRoutesGauge (Send ep message draw s).2 = connectedRoutesGauge s.
Proof.
  assert ((∃ e, findService s ep draw = Return (None, Some e))
          ∨ (∃ r, findService s ep draw = Return (Some r, None))) as Hcases.
  { destruct (m s !! SearchName ep) as [l|] eqn:Hl.
    - destruct (possibleRoutes ep 0 l) as [|k ks] eqn:Hp.
      + left. destruct (TunnelrouteFacts.findService_no_candidate s ep draw)
          as (e & _ & He); [|by exists e].
        right. exists l. split; [done|].
        by apply (TunnelrouteFacts.possibleRoutes_nil ep 0).
      + right. assert (k ∈ possibleRoutes ep 0 l) as Hin by (rewrite Hp; left).
        apply TunnelrouteFacts.possibleRoutes_elem in Hin as (r & _ & Hlk & Hr).
        destruct (TunnelrouteFacts.findService_candidate s ep draw l r)
          as (r' & _ & _ & Hf); [done|by eapply list_elem_of_lookup_2|done|].
        by exists r'.
    - left. destruct (TunnelrouteFacts.findService_no_candidate s ep draw)
        as (e & _ & He); [by left|by exists e]. }
  split; [|split; [|apply Send_reads_only]].
  - intros why Hp. destruct Hcases as [[e He]|[r Hr]]; congruence.
  - intros why. unfold Send.
    destruct Hcases as [[e ->]|[r ->]]; done.
Qed.

(** X8. No candidate is starved: every route under the searched name
    that has the searched endpoint is the one [findService] returns for
    some draw. *)
Theorem every_candidate_can_be_drawn
    (s : table) (ep : Search) (l : list R) (r : R) :
  m s !! SearchName ep = Some l →
  r ∈ l →
  HasEndpoint r (EndpointType ep) (EndpointName ep) = true →
  ∃ draw, findService s ep draw = Return (Some r, None).
Proof.
  intros Hl Hin Hr.
  apply list_elem_of_lookup in Hin as [k Hk].
  assert (k ∈ possibleRoutes ep 0 l) as Hpk.
  { apply TunnelrouteFacts.possibleRoutes_elem. exists r.
    split; [lia|]. by rewrite Nat.sub_0_r. }
  apply list_elem_of_lookup in Hpk as [j Hj].
  exists j. unfold findService. rewrite Hl.
  apply lookup_lt_Some in Hk as Hlen.
  rewrite decide_False by lia.
  apply lookup_lt_Some in Hj as Hjlen.
  rewrite decide_False by lia.
  rewrite Nat.mod_small by done. by rewrite Hj, Hk.
Qed.

Section cancel_facts.
Variable MatchesRoute : Search → R → bool.

Lemma Cancel_first_spec (ep : Search) (l : list R) :
  match Cancel_first MatchesRoute ep l with
  | Some a => ∃ pre post, l = pre ++ a :: post
                          ∧ Forall (λ r, MatchesRoute ep r = false) pre
                          ∧ MatchesRoute ep a = true
  | None => Forall (λ r, MatchesRoute ep r = false) l
  end.
Proof.
  induction l as [|a l IH]; simpl; [constructor|].
  destruct (MatchesRoute ep a) eqn:Ha.
  - exists [], l. by repeat split.
  - destruct (Cancel_first MatchesRoute ep l) as [b|].
    + destruct IH as (pre & post & -> & Hpre & Hb).
      exists (a :: pre), post. split; [done|]. split; [by constructor|done].
    + by constructor.
Qed.

(** X9. [Cancel] returns a nil error exactly when the search carries a
    session and some route under the searched name matches it; it then
    calls [Cancel(id)] on the first matching route of the slice and on
    no other. In every error case it calls no route. *)
Theorem Cancel_reaches_first_match (ep : Search) (id : string) (s : table) :
  ((Cancel MatchesRoute ep id s).1 = None
   ↔ Session ep ≠ ""
     ∧ ∃ l a, m s !! SearchName ep = Some l ∧ a ∈ l ∧ MatchesRoute ep a = true)
  ∧ ((Cancel MatchesRoute ep id s).1 = None →
     ∃ l pre a post,
       m s !! SearchName ep = Some l
       ∧ l = pre ++ a :: post
       ∧ Forall (λ r, MatchesRoute ep r = false) pre
       ∧ MatchesRoute ep a = true
       ∧ (Cancel MatchesRoute ep id s).2 = [(a, id)])
  ∧ ((Cancel MatchesRoute ep id s).1 ≠ None → (Cancel MatchesRoute ep id s).2 = []).
Proof.
  unfold Cancel.
  destruct (decide (String.length (Session ep) = 0%nat)) as [Hs|Hs].
  { simpl. split; [|split; done]. split; [done|].
    intros [Hne _]. by destruct (Session ep). }
  assert (Session ep ≠ "") as Hsession by (by intros Heq; rewrite Heq in Hs).
  destruct (m s !! SearchName ep) as [l|] eqn:Hl.
  2:{ simpl. split; [|split; done]. split; [done|]. by intros (_ & l & a & ? & _). }
  destruct (decide (length l = 0%nat)) as [Hlen|Hlen].
  { simpl. split; [|split; done]. split; [done|].
    intros (_ & l0 & a & Hl0 & Hin & _). simplify_eq.
    apply length_zero_iff_nil in Hlen. subst. by apply elem_of_nil in Hin. }
  pose proof (Cancel_first_spec ep l) as Hfirst.
  destruct (Cancel_first MatchesRoute ep l) as [a|]; simpl.
  - destruct Hfirst as (pre & post & -> & Hpre & Ha).
    split; [|split; [|done]].
    + split; [|done]. intros _. split; [done|].
      exists (pre ++ a :: post), a. split; [done|]. split; [|done].
      apply elem_of_app. right. left.
    + intros _. by exists (pre ++ a :: post), pre, a, post.
  - split; [|split; done]. split; [done|].
    intros (_ & l0 & a & Hl0 & Hin & Ha). simplify_eq.
    rewrite Forall_forall in Hfirst. rewrite (Hfirst a Hin) in Ha. done.
Qed.

End cancel_facts.

Section statistics_facts.
Context {Statistics : Type}.
Variable Route_GetStatistics : R → Statistics.

Lemma GetStatistics_unfold (visited : list string) (s : table) :
  GetStatistics Route_GetStatistics visited s
  = mjoin ((λ name, Route_GetStatistics <$> default [] (m s !! name))
             <$> visited).
Proof.
  unfold GetStatistics.
  assert (∀ (l : list R) ret,
            foldl (λ ret route, ret ++ [Route_GetStatistics route]) ret l
            = ret ++ (Route_GetStatistics <$> l)) as Hinner.
  { induction l as [|r l IH]; intros ret; simpl; [by rewrite app_nil_r|].
    by rewrite IH, <- app_assoc. }
  assert (∀ ret,
            foldl (λ ret name,
                     foldl (λ ret route, ret ++ [Route_GetStatistics route])
                           ret (default [] (m s !! name))) ret visited
            = ret ++ mjoin ((λ name, Route_GetStatistics
                                       <$> default [] (m s !! name)) <$> visited))
    as Houter.
  { induction visited as [|name visited IH]; intros ret; simpl;
      [by rewrite app_nil_r|].
    by rewrite IH, Hinner, <- app_assoc. }
  apply Houter.
Qed.

(** X10. When the iteration visits every name of the map once,
    [GetStatistics] returns the statistics of every route in the table
    and nothing else, one entry per slot of every slice. *)
Theorem GetStatistics_covers_table (visited : list string) (s : table) :
  visited ≡ₚ (map_to_list (m s)).*1 →
  (∀ st, st ∈ GetStatistics Route_GetStatistics visited s
         ↔ ∃ name l r, m s !! name = Some l ∧ r ∈ l
                       ∧ st = Route_GetStatistics r)
  ∧ length (GetStatistics Route_GetStatistics visited s)
    = sum_list ((λ kv, length kv.2) <$> map_to_list (m s)).
Proof.
  intros Hperm. rewrite GetStatistics_unfold. split.
  - intros st. rewrite list_elem_of_join. split.
    + intros (chunk & Hst & Hchunk).
      apply list_elem_of_fmap in Hchunk as (name & -> & _).
      apply list_elem_of_fmap in Hst as (r & -> & Hr).
      destruct (m s !! name) as [l|] eqn:Hl; [|by apply elem_of_nil in Hr].
      by exists name, l, r.
    + intros (name & l & r & Hl & Hr & ->).
      exists (Route_GetStatistics <$> l). split.
      * apply list_elem_of_fmap. by exists r.
      * apply list_elem_of_fmap. exists name. rewrite Hl. split; [done|].
        rewrite Hperm. apply list_elem_of_fmap. exists (name, l).
        split; [done|]. by apply elem_of_map_to_list.
  - rewrite length_join, <- list_fmap_compose.
    rewrite Hperm, <- list_fmap_compose.
    f_equal. apply list_fmap_ext. intros i [name l] Hin.
    apply list_elem_of_lookup_2, elem_of_map_to_list in Hin.
    simpl. by rewrite Hin, length_fmap.
Qed.

End statistics_facts.

End more_table_facts.


(** Witness for X3. *)
Lemma routes_filed_under_own_name_witness :
  GetName Samples.route_B = "a1".
Proof.
  apply (routes_filed_under_own_name Samples.table_ABC)
    with (l := [Samples.route_A; Samples.route_B; Samples.route_C]).
  - repeat constructor.
  - reflexivity.
  - right. left.
Defined.

(** Witness for X4: the first of three sessions goes away. *)
Lemma Remove_takes_out_one_witness :
  ∃ l',
    m (Remove Samples.route_A Samples.table_ABC) !! (GetName Samples.route_A) = Some l'
    ∧ Samples.route_A :: l' ≡ₚ [Samples.route_A; Samples.route_B; Samples.route_C]
    ∧ (∀ name, name ≠ (GetName Samples.route_A) →
         m (Remove Samples.route_A Samples.table_ABC) !! name
         = m Samples.table_ABC !! name)
    ∧ connectedRoutesGauge (Remove Samples.route_A Samples.table_ABC) (GetName Samples.route_A)
      = connectedRoutesGauge Samples.table_ABC (GetName Samples.route_A) - 1
    ∧ (∀ name, name ≠ (GetName Samples.route_A) →
         connectedRoutesGauge (Remove Samples.route_A Samples.table_ABC) name
         = connectedRoutesGauge Samples.table_ABC name)
    ∧ RouteClose Samples.route_A
        ∈ effects (Remove Samples.route_A Samples.table_ABC).
Proof.
  apply (Remove_takes_out_one Samples.table_ABC Samples.route_A
           [Samples.route_A; Samples.route_B; Samples.route_C]).
  - reflexivity.
  - left.
Defined.

(** Witness for X5. *)
Lemma removed_route_is_never_selected_witness :
  findService (Remove Samples.route_A Samples.table_ABC) Samples.search_prod 0
  ≠ Return (Some Samples.route_A, None).
Proof.
  apply (removed_route_is_never_selected Samples.table_ABC Samples.route_A).
  - repeat constructor.
  - intros l Hl. vm_compute in Hl. injection Hl as <-.
    apply (bool_decide_unpack _). vm_compute. exact I.
Defined.

(** Witness for X6. *)
Lemma added_route_is_found_witness :
  ∃ r, findService (Add Samples.route_A Samples.empty_table) Samples.search_prod 9
       = Return (Some r, None)
       ∧ HasEndpoint r "kubernetes" "prod" = true
       ∧ (default [] (m Samples.empty_table !! "a1") = [] → r = Samples.route_A).
Proof.
  apply (added_route_is_found Samples.empty_table Samples.route_A
           Samples.search_prod 9); reflexivity.
Defined.

(** Witness for X8: the third session is drawn. *)
Lemma every_candidate_can_be_drawn_witness :
  ∃ draw, findService Samples.table_ABC Samples.search_prod draw
          = Return (Some Samples.route_C, None).
Proof.
  apply (every_candidate_can_be_drawn Samples.table_ABC Samples.search_prod
           [Samples.route_A; Samples.route_B; Samples.route_C] Samples.route_C).
  - reflexivity.
  - right. right. left.
  - reflexivity.
Defined.

(** Witness for X9: cancelling on the second session. *)
Lemma Cancel_reaches_first_match_witness :
  (Cancel Samples.matches_session Samples.search_session_B "t1"
     Samples.table_ABC).1 = None.
Proof.
  apply (Cancel_reaches_first_match Samples.matches_session
           Samples.search_session_B "t1" Samples.table_ABC).
  split; [discriminate|].
  exists [Samples.route_A; Samples.route_B; Samples.route_C], Samples.route_B.
  split; [reflexivity|]. split; [right; left|reflexivity].
Defined.

Example Cancel_calls_second_session :
  Cancel Samples.matches_session Samples.search_session_B "t1" Samples.table_ABC
  = (None, [(Samples.route_B, "t1")])
  ∧ Cancel Samples.matches_session Samples.search_prod "t1" Samples.table_ABC
    = (Some session_is_not_set, []).
Proof. split; reflexivity. Qed.

(** Witness for X10: one name, three sessions. *)
Lemma GetStatistics_covers_table_witness :
  (∀ st, st ∈ GetStatistics route_Session ["a1"] Samples.table_ABC
         ↔ ∃ name l r, m Samples.table_ABC !! name = Some l ∧ r ∈ l
                       ∧ st = route_Session r)
  ∧ length (GetStatistics route_Session ["a1"] Samples.table_ABC)
    = sum_list ((λ kv, length kv.2) <$> map_to_list (m Samples.table_ABC)).
Proof.
  apply (GetStatistics_covers_table route_Session ["a1"] Samples.table_ABC).
  vm_compute. reflexivity.
Defined.

End TableFacts.

(* ================================================================== *)
(** * More facts about the Kubernetes executor *)
(* ================================================================== *)
Module ExecutorMoreFacts.
Import Tunnel TunnelHelpers.

Lemma frames_Dataflow (frs : list MessageWrapper) :
  frames (map Dataflow frs) = frs.
Proof. induction frs as [|fr frs IH]; simpl; by rewrite ?IH. Qed.

Lemma chunk_bytes_app (frs1 frs2 : list MessageWrapper) :
  Agent.chunk_bytes (frs1 ++ frs2)
  = Agent.chunk_bytes frs1 ++ Agent.chunk_bytes frs2.
Proof.
  induction frs1 as [|fr frs1 IH]; [done|].
  destruct fr as [| | |[| | |c]]; simpl; rewrite ?IH; try done.
  by rewrite app_assoc.
Qed.

(** Whatever the reads return, the loop only sends frames: data chunks,
    then nothing or one zero-length chunk. *)
Lemma readLoop_sends_chunks (id : string) (reads : list HTTP.ReadResult) :
  ∃ chunks tail,
    (Agent.readLoop id reads).1 = map Dataflow (chunks ++ tail)
    ∧ Forall (is_data_chunk id) chunks
    ∧ (tail = [] ∨ tail = [makeChunkedResponse id emptyBytes]).
Proof.
  induction reads as [|rd reads IH].
  - exists [], []. simpl. by repeat split; [|left].
  - simpl. case_decide as Hbig.
    { exists [], []. simpl. by repeat split; [|left]. }
    set (n := Z.of_nat (length (HTTP.read_data rd))) in *.
    assert (∃ sentf,
              (if decide (0 < n)
               then [Dataflow (makeChunkedResponse id (HTTP.read_data rd))]
               else []) = map Dataflow sentf
              ∧ Forall (is_data_chunk id) sentf) as (sentf & -> & Hsentf).
    { case_decide.
      - exists [makeChunkedResponse id (HTTP.read_data rd)]. split; [done|].
        constructor; [|constructor].
        exists (HTTP.read_data rd). split; [done|]. fold n. lia.
      - by exists []. }
    destruct (HTTP.read_err rd).
    + destruct IH as (chunks & tail & Heq & Hchunks & Htail).
      destruct (Agent.readLoop id reads) as [more st]. simpl in *. subst more.
      exists (sentf ++ chunks), tail.
      split; [by rewrite <- map_app, app_assoc|].
      split; [by apply Forall_app|done].
    + exists sentf, [makeChunkedResponse id emptyBytes]. simpl.
      split; [by rewrite map_app|]. split; [done|by right].
    + exists sentf, []. simpl.
      split; [by rewrite app_nil_r|]. split; [done|by left].
    + exists sentf, [makeChunkedResponse id emptyBytes]. simpl.
      split; [by rewrite map_app|]. split; [done|by right].
Qed.

(** Within the buffer size the loop forwards every byte it reads. *)
Lemma readLoop_forwards_bytes (id : string) (reads : list HTTP.ReadResult) :
  Agent.fits_buffer reads →
  Agent.chunk_bytes (frames (Agent.readLoop id reads).1)
  = Agent.bytes_read reads.
Proof.
  induction 1 as [|rd reads Hrd Hfits IH]; [done|].
  simpl. rewrite decide_False by lia.
  assert (Agent.chunk_bytes
            (frames (if decide (0 < Z.of_nat (length (HTTP.read_data rd)))
                     then [Dataflow (makeChunkedResponse id (HTTP.read_data rd))]
                     else []))
          = HTTP.read_data rd) as Hsent.
  { case_decide as Hpos; simpl; [by rewrite app_nil_r|].
    destruct (HTTP.read_data rd); [done|]. simpl in Hpos. lia. }
  destruct (HTTP.read_err rd).
  - destruct (Agent.readLoop id reads) as [more st]. simpl in *.
    by rewrite ExecutorFacts.frames_app, chunk_bytes_app, Hsent, IH.
  - simpl. by rewrite ExecutorFacts.frames_app, chunk_bytes_app, Hsent.
  - simpl. by rewrite Hsent, app_nil_r.
  - simpl. by rewrite ExecutorFacts.frames_app, chunk_bytes_app, Hsent.
Qed.

Section executor_more_facts.
Variable CanonicalMIMEHeaderKey : string → string.
Variable http_NewRequestWithContext :
  string → string → list byte → HTTP.Request + string.
Variable client_Do : HTTP.Client → HTTP.Request → HTTP.Response + string.
Variable tunnel_CopyHeaders :
  list HttpHeader → HTTP.Header → HTTP.Header * option string.
Variable tunnel_RunHTTPRequest :
  HTTP.Client → OpenHTTPTunnelRequest → HTTP.Request → string → list MessageWrapper.

Abbreviation executeHTTPRequest :=
  (Agent.executeHTTPRequest
     CanonicalMIMEHeaderKey http_NewRequestWithContext client_Do).
Abbreviation ExecuteHTTPRequest :=
  (Serviceconfig.ExecuteHTTPRequest
     CanonicalMIMEHeaderKey http_NewRequestWithContext
     tunnel_CopyHeaders tunnel_RunHTTPRequest).
Abbreviation outbound := (Agent.outbound CanonicalMIMEHeaderKey).
Abbreviation add_headers := (Agent.add_headers CanonicalMIMEHeaderKey).
Abbreviation tunnelled_values := (Agent.tunnelled_values CanonicalMIMEHeaderKey).

(** Every run of the executor, on every path. *)
Lemma executeHTTPRequest_effects
    (ke : Agent.KubernetesEndpoint) (req : OpenHTTPTunnelRequest) :
  ∃ r chunks tail,
    (executeHTTPRequest ke req).1
    = RegisterCancelFunction (req_id req)
      :: map Dataflow (HttpTunnelControl_ (HttpTunnelResponse_ r) :: chunks ++ tail)
      ++ match (executeHTTPRequest ke req).2 with
         | Reading => []
         | _ => [UnregisterCancelFunction (req_id req)]
         end
    ∧ resp_id r = req_id req
    ∧ Forall (is_data_chunk (req_id req)) chunks
    ∧ (tail = [] ∨ tail = [makeChunkedResponse (req_id req) emptyBytes]).
Proof.
  unfold Agent.executeHTTPRequest.
  destruct (http_NewRequestWithContext _ _ _) as [httpRequest|err].
  2:{ eexists _, [], []. simpl. split; [done|]. by repeat split; [|left]. }
  destruct (client_Do _ _) as [get|err].
  2:{ eexists _, [], []. simpl. split; [done|]. by repeat split; [|left]. }
  destruct (readLoop_sends_chunks (req_id req) (HTTP.Body get))
    as (chunks & tail & Heq & Hchunks & Htail).
  destruct (Agent.readLoop (req_id req) (HTTP.Body get)) as [sent st].
  simpl in Heq. subst sent.
  eexists _, chunks, tail. simpl. split; [done|]. by repeat split.
Qed.

(** X11. On every path (request not built, call failed, body streamed,
    cancelled, broken or still being read) the frames of a transaction
    are one response frame first, carrying the transaction id, then
    data chunks with that id and a non-empty body of at most 10240
    bytes, then nothing or one zero-length chunk with that id: no frame
    precedes the response frame, none follows a zero-length chunk and
    none carries another id. *)
Theorem executor_frames_in_order
    (ke : Agent.KubernetesEndpoint) (req : OpenHTTPTunnelRequest) :
  (∃ r chunks tail,
     frames (executeHTTPRequest ke req).1
     = HttpTunnelControl_ (HttpTunnelResponse_ r) :: chunks ++ tail
     ∧ Forall (is_data_chunk (req_id req)) chunks
     ∧ (tail = [] ∨ tail = [makeChunkedResponse (req_id req) emptyBytes]))
  ∧ Forall (λ fr, Agent.frame_id fr = Some (req_id req))
           (frames (executeHTTPRequest ke req).1).
Proof.
  destruct (executeHTTPRequest_effects ke req)
    as (r & chunks & tail & Heq & Hid & Hchunks & Htail).
  assert (frames (executeHTTPRequest ke req).1
          = HttpTunnelControl_ (HttpTunnelResponse_ r) :: chunks ++ tail) as Hfr.
  { rewrite Heq. simpl. rewrite ExecutorFacts.frames_app, frames_Dataflow.
    destruct ((executeHTTPRequest ke req).2); simpl; by rewrite app_nil_r. }
  split; [by exists r, chunks, tail|].
  rewrite Hfr. constructor; [by simpl; rewrite Hid|].
  apply Forall_app. split.
  - eapply Forall_impl; [exact Hchunks|]. by intros fr (body & -> & _).
  - destruct Htail as [->| ->]; repeat constructor.
Qed.

(** X12. The cancel function is registered before the first frame is
    sent and unregistered after the last one on every path on which the
    executor returns or panics; while it is still reading, nothing is
    unregistered. Between the two there are only sends. The later
    [ExecuteHTTPRequest] registers and unregisters in the same way. *)
Theorem cancel_registration_is_balanced
    (ke : Agent.KubernetesEndpoint) (ske : Serviceconfig.KubernetesEndpoint)
    (req : OpenHTTPTunnelRequest) :
  (∃ sent,
     (executeHTTPRequest ke req).1
     = RegisterCancelFunction (req_id req) :: map Dataflow sent
       ++ match (executeHTTPRequest ke req).2 with
          | Reading => []
          | _ => [UnregisterCancelFunction (req_id req)]
          end)
  ∧ (∃ sent,
       ExecuteHTTPRequest ske req
       = RegisterCancelFunction (req_id req) :: map Dataflow sent
         ++ [UnregisterCancelFunction (req_id req)]).
Proof.
  split.
  - destruct (executeHTTPRequest_effects ke req)
      as (r & chunks & tail & Heq & _).
    eexists. exact Heq.
  - unfold Serviceconfig.ExecuteHTTPRequest.
    destruct (http_NewRequestWithContext _ _ _) as [httpRequest|err];
      [|by exists [MakeBadGatewayResponse (req_id req)]].
    destruct (tunnel_CopyHeaders _ _) as [h [err|]];
      [by exists [MakeBadGatewayResponse (req_id req)]|].
    by eexists.
Qed.

(** X13. When the outbound call succeeds and the reader keeps the
    [io.Reader] contract, the chunk frames carry, in order and
    unchanged, exactly the bytes the body's reads returned up to and
    including the read that ended the body. *)
Theorem body_bytes_are_forwarded
    (ke : Agent.KubernetesEndpoint) (req : OpenHTTPTunnelRequest)
    (httpRequest : HTTP.Request) (get : HTTP.Response) :
  http_NewRequestWithContext
    (req_method req) (Agent.serverURL (Agent.f ke) +:+ req_URI req) (req_body req)
    = inl httpRequest →
  client_Do (Agent.make_client (Agent.makeServerContextFields ke))
            (outbound (Agent.makeServerContextFields ke) req httpRequest)
    = inl get →
  Agent.fits_buffer (HTTP.Body get) →
  Agent.chunk_bytes (frames (executeHTTPRequest ke req).1)
  = Agent.bytes_read (HTTP.Body get).
Proof.
  intros Hnew Hdo Hfits.
  destruct (ExecutorFacts.executeHTTPRequest_answered
              CanonicalMIMEHeaderKey http_NewRequestWithContext client_Do
              ke req httpRequest get Hnew Hdo) as [-> _].
  simpl. by apply readLoop_forwards_bytes.
Qed.

Lemma add_values_lookup
    (name : string) (values : list string) (h : HTTP.Header) (key : string) :
  default [] (Agent.add_values CanonicalMIMEHeaderKey name values h !! key)
  = default [] (h !! key)
    ++ (if decide (CanonicalMIMEHeaderKey name = key) then values else []).
Proof.
  unfold Agent.add_values. revert h.
  induction values as [|value values IH]; intros h; simpl.
  - case_decide; by rewrite app_nil_r.
  - rewrite IH. unfold HTTP.Header_Add.
    destruct (decide (CanonicalMIMEHeaderKey name = key)) as [<-|Hne].
    + rewrite lookup_insert_eq. simpl. by rewrite <- app_assoc.
    + by rewrite lookup_insert_ne.
Qed.

Lemma add_headers_lookup
    (headers : list HttpHeader) (h : HTTP.Header) (key : string) :
  default [] (add_headers headers h !! key)
  = default [] (h !! key) ++ tunnelled_values key headers.
Proof.
  unfold Agent.add_headers, Agent.tunnelled_values. revert h.
  induction headers as [|header headers IH]; intros h; simpl.
  - by rewrite app_nil_r.
  - rewrite IH, add_values_lookup, filter_cons.
    case_decide; simpl; [by rewrite <- app_assoc|by rewrite app_nil_r].
Qed.

(** X14. Copying the tunnelled headers keeps multi-value semantics:
    under every canonical key the request ends up with the values it
    had, followed by the values of all tunnelled headers with that
    canonical name, in their order of appearance; a key no tunnelled
    header maps to keeps its values. *)
Theorem add_headers_accumulates
    (headers : list HttpHeader) (h : HTTP.Header) (key : string) :
  default [] (add_headers headers h !! key)
  = default [] (h !! key) ++ tunnelled_values key headers
  ∧ (Forall (λ header, CanonicalMIMEHeaderKey (header_name header) ≠ key) headers →
     default [] (add_headers headers h !! key) = default [] (h !! key)).
Proof.
  split; [apply add_headers_lookup|].
  intros Hnone. rewrite add_headers_lookup.
  unfold Agent.tunnelled_values.
  replace (filter _ headers) with (@nil HttpHeader); [by rewrite app_nil_r|].
  symmetry. induction Hnone as [|header headers Hne _ IH]; [done|].
  rewrite filter_cons. by rewrite decide_False.
Qed.

(** X15. With a bearer token in the context the outbound request
    carries exactly that token as its [Authorization] header, whatever
    the tunnelled request carried; without a token the tunnelled
    [Authorization] values are passed on. Method, URL and body of the
    built request are never changed. *)
Theorem bearer_token_replaces_authorization
    (c : Agent.kubeContext) (req : OpenHTTPTunnelRequest)
    (httpRequest : HTTP.Request) :
  let key := CanonicalMIMEHeaderKey "Authorization" in
  (Agent.token c ≠ "" →
   HTTP.RequestHeader (outbound c req httpRequest) !! key
   = Some ["Bearer " +:+ Agent.token c])
  ∧ (Agent.token c = "" →
     default [] (HTTP.RequestHeader (outbound c req httpRequest) !! key)
     = default [] (HTTP.RequestHeader httpRequest !! key)
       ++ tunnelled_values key (req_headers req))
  ∧ HTTP.Method (outbound c req httpRequest) = HTTP.Method httpRequest
  ∧ HTTP.URL (outbound c req httpRequest) = HTTP.URL httpRequest
  ∧ HTTP.RequestBody (outbound c req httpRequest) = HTTP.RequestBody httpRequest.
Proof.
  intros key. unfold Agent.outbound. simpl. split; [|split; [|done]].
  - intros Htoken. rewrite decide_True.
    + unfold HTTP.Header_Set. by rewrite lookup_insert_eq.
    + destruct (Agent.token c); [done|simpl; lia].
  - intros ->. simpl. apply add_headers_lookup.
Qed.

End executor_more_facts.

(** Witness for X13: the two bytes of the complete body. *)
Lemma body_bytes_are_forwarded_witness :
  Agent.chunk_bytes
    (frames (Agent.executeHTTPRequest Samples.canonical Samples.new_request
               (Samples.answers (Samples.response_with Samples.body_complete))
               Samples.endpoint_0 Samples.request_0).1)
  = Agent.bytes_read Samples.body_complete.
Proof.
  apply (body_bytes_are_forwarded
           Samples.canonical Samples.new_request
           (Samples.answers (Samples.response_with Samples.body_complete))
           Samples.endpoint_0 Samples.request_0
           {| HTTP.Method := "GET"; HTTP.URL := "https://kube.local/v1/pods";
              HTTP.RequestHeader := ∅; HTTP.RequestBody := [] |}
           (Samples.response_with Samples.body_complete)).
  - reflexivity.
  - reflexivity.
  - repeat constructor; simpl; lia.
Defined.

Example broken_body_keeps_its_bytes :
  Agent.chunk_bytes
    (frames (Agent.executeHTTPRequest Samples.canonical Samples.new_request
               (Samples.answers (Samples.response_with Samples.body_broken))
               Samples.endpoint_0 Samples.request_0).1)
  = [x7b].
Proof. reflexivity. Qed.

(** Witness for X14: no tunnelled header of the sample request is a
    [Host] header. *)
Lemma add_headers_accumulates_witness :
  default [] (Agent.add_headers Samples.canonical
                (req_headers Samples.request_0) ∅ !! "Host")
  = default [] ((∅ : HTTP.Header) !! "Host").
Proof.
  apply (add_headers_accumulates Samples.canonical
           (req_headers Samples.request_0) ∅ "Host").
  repeat constructor. discriminate.
Defined.

(** Witness for X15: the sample context has a token. *)
Lemma bearer_token_replaces_authorization_witness :
  HTTP.RequestHeader
    (Agent.outbound Samples.canonical Samples.context_0 Samples.request_0
       {| HTTP.Method := "GET"; HTTP.URL := "https://kube.local/v1/pods";
          HTTP.RequestHeader := ∅; HTTP.RequestBody := [] |})
    !! Samples.canonical "Authorization"
  = Some ["Bearer " +:+ Agent.token Samples.context_0].
Proof.
  apply (bearer_token_replaces_authorization Samples.canonical
           Samples.context_0 Samples.request_0
           {| HTTP.Method := "GET"; HTTP.URL := "https://kube.local/v1/pods";
              HTTP.RequestHeader := ∅; HTTP.RequestBody := [] |}).
  discriminate.
Defined.

End ExecutorMoreFacts.

(* ================================================================== *)
(** * More facts about the credential context *)
(* ================================================================== *)
Module ContextMoreFacts.

Lemma same_context_sym (a b : Agent.kubeContext) :
  Agent.same_context a b → Agent.same_context b a.
Proof.
  unfold Agent.same_context.
  intros (Hu & Hs & Ht & Hi & Hca & Hcc).
  do 4 (split; [done|]). split.
  - destruct (Agent.serverCA a), (Agent.serverCA b); done.
  - destruct (Agent.clientCert a), (Agent.clientCert b); try done.
    destruct Hcc as (der & ? & ?). by exists der.
Qed.

Lemma same_context_trans (a b c : Agent.kubeContext) :
  Agent.same_context a b → Agent.same_context b c → Agent.same_context a c.
Proof.
  unfold Agent.same_context.
  intros (Hu & Hs & Ht & Hi & Hca & Hcc) (Hu' & Hs' & Ht' & Hi' & Hca' & Hcc').
  do 4 (split; [congruence|]). split.
  - destruct (Agent.serverCA a), (Agent.serverCA b), (Agent.serverCA c);
      try done. congruence.
  - destruct (Agent.clientCert a), (Agent.clientCert b), (Agent.clientCert c);
      try done.
    destruct Hcc as (der & ? & ?), Hcc' as (der' & ? & ?).
    exists der. split; [done|]. congruence.
Qed.

Lemma same_context_refl (a : Agent.kubeContext) :
  Agent.has_leaf a → Agent.same_context a a.
Proof.
  unfold Agent.same_context, Agent.has_leaf. intros Hleaf.
  do 4 (split; [done|]). split.
  - by destruct (Agent.serverCA a).
  - destruct (Agent.clientCert a) as [cert|]; [|done].
    destruct (TLS.Certificate_ cert) as [|der chain]; [done|]. by exists der.
Qed.

(** The comparison panics exactly when it gets as far as the client
    certificates and one of them has an empty chain. *)
Lemma isSameAs_false_or_panic_sym (a b : Agent.kubeContext) :
  Agent.isSameAs a b = Agent.isSameAs b a.
Proof.
  destruct a as [u1 s1 ca1 cc1 t1 i1], b as [u2 s2 ca2 cc2 t2 i2].
  unfold Agent.isSameAs, X509.Equal. simpl.
  destruct (decide (u1 = u2)) as [->|?].
  2:{ rewrite (bool_decide_eq_true_2 (u1 ≠ u2)) by done.
      by rewrite (bool_decide_eq_true_2 (u2 ≠ u1)). }
  destruct (decide (s1 = s2)) as [->|?].
  2:{ rewrite (bool_decide_eq_true_2 (s1 ≠ s2)) by done.
      rewrite (bool_decide_eq_true_2 (s2 ≠ s1)) by done.
      by rewrite !orb_true_r. }
  destruct (decide (t1 = t2)) as [->|?].
  2:{ rewrite (bool_decide_eq_true_2 (t1 ≠ t2)) by done.
      rewrite (bool_decide_eq_true_2 (t2 ≠ t1)) by done.
      by rewrite !orb_true_r. }
  destruct (decide (i1 = i2)) as [->|?].
  2:{ rewrite (bool_decide_eq_true_2 (i1 ≠ i2)) by done.
      rewrite (bool_decide_eq_true_2 (i2 ≠ i1)) by done.
      by rewrite !orb_true_r. }
  destruct (bool_decide (u2 ≠ u2) || bool_decide (s2 ≠ s2)
            || bool_decide (t2 ≠ t2) || bool_decide (i2 ≠ i2)); [done|].
  assert (match cc1, cc2 with
          | Some c, Some c2 =>
              match TLS.Certificate_ c !! 0%nat, TLS.Certificate_ c2 !! 0%nat with
              | Some der, Some der2 =>
                  if negb (bool_decide (der = der2)) then Return false
                  else Return true
              | _, _ => Panic "index out of range"
              end
          | _, _ => Return true
          end
          = match cc2, cc1 with
            | Some c, Some c2 =>
                match TLS.Certificate_ c !! 0%nat, TLS.Certificate_ c2 !! 0%nat with
                | Some der, Some der2 =>
                    if negb (bool_decide (der = der2)) then Return false
                    else Return true
                | _, _ => Panic "index out of range"
                end
            | _, _ => Return true
            end) as Hcc.
  { destruct cc1 as [c1|], cc2 as [c2|]; try done.
    destruct (TLS.Certificate_ c1 !! 0%nat) as [d1|],
             (TLS.Certificate_ c2 !! 0%nat) as [d2|]; try done.
    destruct (decide (d1 = d2)) as [->|Hne]; [done|].
    rewrite (bool_decide_eq_false_2 (d1 = d2)) by done.
    by rewrite (bool_decide_eq_false_2 (d2 = d1)). }
  destruct ca1 as [ca1|], ca2 as [ca2|]; simpl; try done.
  - destruct (decide (X509.Raw ca1 = X509.Raw ca2)) as [Hraw|Hraw].
    + rewrite (bool_decide_eq_true_2 _ Hraw).
      rewrite (bool_decide_eq_true_2 (X509.Raw ca2 = X509.Raw ca1)) by done.
      simpl. destruct cc1, cc2; simpl; done.
    + rewrite (bool_decide_eq_false_2 _ Hraw).
      by rewrite (bool_decide_eq_false_2 (X509.Raw ca2 = X509.Raw ca1)).
  - destruct cc1, cc2; simpl; done.
Qed.

(** X16. [isSameAs] is symmetric in every outcome (true, false and
    panic), in both versions; it is transitive; and a context is the
    same as itself exactly when its client certificate, if any, has a
    non-empty chain (otherwise the comparison panics). *)
Theorem isSameAs_is_an_equivalence (a b c : Agent.kubeContext) :
  Agent.isSameAs a b = Agent.isSameAs b a
  ∧ Serviceconfig.isSameAs a b = Serviceconfig.isSameAs b a
  ∧ (Agent.isSameAs a b = Return true → Agent.isSameAs b c = Return true →
     Agent.isSameAs a c = Return true)
  ∧ (Agent.isSameAs a a = Return true ↔ Agent.has_leaf a)
  ∧ (¬ Agent.has_leaf a → Agent.isSameAs a a = Panic "index out of range").
Proof.
  split; [apply isSameAs_false_or_panic_sym|].
  split; [rewrite !ContextFacts.isSameAs_versions_agree;
          apply isSameAs_false_or_panic_sym|].
  split.
  { rewrite !ContextFacts.Agent_isSameAs_true. apply same_context_trans. }
  split.
  - rewrite ContextFacts.Agent_isSameAs_true. split; [|apply same_context_refl].
    unfold Agent.same_context, Agent.has_leaf.
    intros (_ & _ & _ & _ & _ & Hcc).
    destruct (Agent.clientCert a) as [cert|]; [|done].
    destruct Hcc as (der & Hder & _). intros Hnil. by rewrite Hnil in Hder.
  - destruct a as [u s ca cc t i].
    unfold Agent.has_leaf, Agent.isSameAs. simpl. intros Hno.
    destruct cc as [cert|]; [|done].
    destruct (TLS.Certificate_ cert) as [|der chain] eqn:Hchain;
      [|by destruct Hno].
    rewrite (bool_decide_eq_false_2 (u ≠ u)) by (intros ?; done).
    rewrite (bool_decide_eq_false_2 (s ≠ s)) by (intros ?; done).
    rewrite (bool_decide_eq_false_2 (t ≠ t)) by (intros ?; done).
    rewrite (bool_decide_eq_false_2 (i ≠ i)) by (intros ?; done). simpl.
    destruct ca as [ca|]; simpl; [|done].
    unfold X509.Equal. by rewrite bool_decide_eq_true_2.
Qed.

(** Witness for X16. *)
Lemma isSameAs_is_an_equivalence_witness :
  Agent.isSameAs Samples.context_0 Samples.context_0 = Return true.
Proof.
  apply (isSameAs_is_an_equivalence
           Samples.context_0 Samples.context_0 Samples.context_0).
  exact I.
Defined.

(** X17. A round of the refresh worker settles: when the loaded context
    has a usable client certificate (or none) and the round returns,
    the stored context compares equal to the loaded one, and a second
    round with the same loaded context changes nothing. *)
Theorem refresh_round_settles
    (saf : Agent.kubeContext) (ke ke' : Agent.KubernetesEndpoint) :
  Agent.has_leaf saf →
  Agent.updateServerContextTicker_round saf ke = Return ke' →
  Agent.isSameAs (Agent.f ke') saf = Return true
  ∧ Agent.updateServerContextTicker_round saf ke' = Return ke'.
Proof.
  intros Hleaf Hround.
  assert (Agent.isSameAs (Agent.f ke') saf = Return true) as Hsame.
  { unfold Agent.updateServerContextTicker_round in Hround.
    destruct (Agent.isSameAs (Agent.f ke) saf) as [[|]|] eqn:Hcmp;
      simpl in Hround; simplify_eq; [done|].
    simpl. apply ContextFacts.Agent_isSameAs_true. by apply same_context_refl. }
  split; [done|].
  unfold Agent.updateServerContextTicker_round. by rewrite Hsame.
Qed.

(** Witness for X17: the rotated token is stored, then kept. *)
Lemma refresh_round_settles_witness :
  Agent.isSameAs (Agent.f {| Agent.f := Samples.context_1 |}) Samples.context_1
    = Return true
  ∧ Agent.updateServerContextTicker_round Samples.context_1
      {| Agent.f := Samples.context_1 |}
    = Return {| Agent.f := Samples.context_1 |}.
Proof.
  apply (refresh_round_settles Samples.context_1 Samples.endpoint_0
           {| Agent.f := Samples.context_1 |}).
  - exact I.
  - reflexivity.
Defined.

End ContextMoreFacts.

(* ================================================================== *)
(** * Facts about loading credentials *)
(* ================================================================== *)
Module CredentialFacts.
Import Tunnel.

Section loading.
Variable KubeConfig : Type.
Variable CurrentContext : KubeConfig → string.
Variable GetContextNames : KubeConfig → list string.
Variable FindContext :
  KubeConfig → string → (Agent.KubeUser * Agent.KubeCluster) + string.
Variable ReadKubeConfig : list byte → KubeConfig + string.
Variable base64_DecodeString : string → list byte + string.
Variable tls_X509KeyPair : list byte → list byte → TLS.Certificate + string.
Variable pem_Decode : list byte → option (list byte).
Variable x509_ParseCertificate : list byte → X509.Certificate + string.
Variable yaml_Unmarshal : list byte → Serviceconfig.kubernetesConfig + string.
Variable files : gmap string (list byte).
Variable environ : gmap string string.

Abbreviation loadServiceAccount :=
  (Agent.loadServiceAccount pem_Decode x509_ParseCertificate files environ).
Abbreviation context_of :=
  (Agent.context_of KubeConfig FindContext base64_DecodeString tls_X509KeyPair
     pem_Decode x509_ParseCertificate).
Abbreviation context_loop :=
  (Agent.context_loop KubeConfig CurrentContext FindContext base64_DecodeString
     tls_X509KeyPair pem_Decode x509_ParseCertificate).
Abbreviation serverContextFromKubeconfig :=
  (Agent.serverContextFromKubeconfig KubeConfig CurrentContext GetContextNames
     FindContext base64_DecodeString tls_X509KeyPair pem_Decode
     x509_ParseCertificate).
Abbreviation loadKubernetesSecurity :=
  (Agent.loadKubernetesSecurity KubeConfig CurrentContext GetContextNames
     FindContext ReadKubeConfig base64_DecodeString tls_X509KeyPair pem_Decode
     x509_ParseCertificate files environ).
Abbreviation MakeKubernetesEndpoint :=
  (Serviceconfig.MakeKubernetesEndpoint KubeConfig CurrentContext GetContextNames
     FindContext ReadKubeConfig base64_DecodeString tls_X509KeyPair pem_Decode
     x509_ParseCertificate yaml_Unmarshal files environ).

(** X18. [loadServiceAccount] panics exactly when the token file and
    the CA file are readable and the CA file holds no PEM block (the
    nil block is dereferenced), whatever the environment; it has no
    other panic; and when it returns, it returns either a context and
    a nil error or a nil context and an error, never both and never
    neither. *)
Theorem loadServiceAccount_outcomes :
  (loadServiceAccount = Panic "nil pointer dereference"
   ↔ ∃ token_bytes ca_bytes,
       files !! Agent.token_path = Some token_bytes
       ∧ files !! Agent.ca_path = Some ca_bytes
       ∧ pem_Decode ca_bytes = None)
  ∧ (∀ why, loadServiceAccount = Panic why → why = "nil pointer dereference")
  ∧ (∀ c e, loadServiceAccount = Return (c, e) →
            (is_Some c ∧ e = None) ∨ (c = None ∧ is_Some e)).
Proof.
  unfold Agent.loadServiceAccount, Agent.ReadFile.
  destruct (files !! Agent.token_path) as [token_bytes|].
  2:{ split; [split; [done|by intros (? & ? & ? & _)]|].
      split; [done|]. intros c e [= <- <-]. by right. }
  destruct (files !! Agent.ca_path) as [ca_bytes|].
  2:{ split; [split; [done|by intros (? & ? & _ & ? & _)]|].
      split; [done|]. intros c e [= <- <-]. by right. }
  destruct (pem_Decode ca_bytes) as [der|] eqn:Hpem.
  2:{ split; [split; [by intros _; exists token_bytes, ca_bytes|done]|].
      split; [by intros why [= <-]|done]. }
  assert (∀ P : Prop, (∃ t ca : list byte,
            Some token_bytes = Some t ∧ Some ca_bytes = Some ca
            ∧ pem_Decode ca = None) → P) as Hno.
  { intros P (t & ca & _ & [= <-] & Hnone). congruence. }
  destruct (x509_ParseCertificate der) as [cert|err].
  2:{ split; [split; [done|apply Hno]|].
      split; [done|]. intros c e [= <- <-]. by right. }
  case_decide.
  { split; [split; [done|apply Hno]|].
    split; [done|]. intros c e [= <- <-]. by right. }
  case_decide.
  { split; [split; [done|apply Hno]|].
    split; [done|]. intros c e [= <- <-]. by right. }
  split; [split; [done|apply Hno]|].
  split; [done|]. intros c e [= <- <-]. by left.
Qed.

Lemma context_loop_finds (kconfig : KubeConfig) (names : list string) :
  context_loop kconfig names
  = if decide (CurrentContext kconfig ∈ names)
    then context_of kconfig (CurrentContext kconfig)
    else Agent.Fatalf "Default context not found in kubeconfig".
Proof.
  induction names as [|name names IH]; cbn [Agent.context_loop].
  - rewrite decide_False; [done|]. by intros ?%elem_of_nil.
  - destruct (decide (name ≠ CurrentContext kconfig)) as [Hne|Heq].
    + rewrite IH. destruct (decide (CurrentContext kconfig ∈ names)) as [Hin|Hnot].
      * rewrite decide_True; [done|]. by right.
      * rewrite decide_False; [done|].
        intros [?|?]%elem_of_cons; [by subst|done].
    + assert (name = CurrentContext kconfig) as ->
        by (by destruct (decide (name = CurrentContext kconfig))).
      rewrite decide_True; [done|]. by left.
Qed.

Lemma context_of_returns (kconfig : KubeConfig) (name : string)
    (c : Agent.kubeContext) :
  context_of kconfig name = Agent.Returns c →
  ∃ user cluster cert,
    FindContext kconfig name = inl (user, cluster)
    ∧ Agent.username c = Agent.user_Name user
    ∧ Agent.serverURL c = Agent.Server cluster
    ∧ Agent.insecure c = Agent.InsecureSkipTLSVerify cluster
    ∧ Agent.token c = ""
    ∧ Agent.clientCert c = Some cert
    ∧ (Agent.serverCA c = None ↔ Agent.CertificateAuthorityData cluster = "").
Proof.
  unfold Agent.context_of.
  destruct (FindContext kconfig name) as [[user cluster]|]; [|done].
  destruct (base64_DecodeString (Agent.ClientCertificateData user)); [|done].
  destruct (base64_DecodeString (Agent.ClientKeyData user)); [|done].
  destruct (tls_X509KeyPair _ _) as [cert|]; [|done].
  case_decide as Hca.
  - destruct (base64_DecodeString _); [|done].
    destruct (pem_Decode _); [|done].
    destruct (x509_ParseCertificate _); [|done].
    intros [= <-]. exists user, cluster, cert. simpl.
    do 6 (split; [done|]). split; [done|].
    intros Hempty. rewrite Hempty in Hca. simpl in Hca. lia.
  - intros [= <-]. exists user, cluster, cert. simpl.
    do 6 (split; [done|]). split; [|done]. intros _.
    destruct (Agent.CertificateAuthorityData cluster); [done|simpl in Hca; lia].
Qed.

Lemma context_of_other_fatal (kconfig : KubeConfig) (name : string) :
  context_of kconfig name ≠ Agent.Fatalf "Default context not found in kubeconfig".
Proof.
  unfold Agent.context_of.
  destruct (FindContext kconfig name) as [[user cluster]|]; [|done].
  destruct (base64_DecodeString (Agent.ClientCertificateData user)); [|done].
  destruct (base64_DecodeString (Agent.ClientKeyData user)); [|done].
  destruct (tls_X509KeyPair _ _) as [cert|]; [|done].
  case_decide; [|done].
  destruct (base64_DecodeString _); [|done].
  destruct (pem_Decode _); [|done].
  by destruct (x509_ParseCertificate _).
Qed.

(** X19. A context that [serverContextFromKubeconfig] returns belongs
    to the current context of the kubeconfig, which is among its
    context names: it has that entry's user name, server URL and
    insecure flag, always a client certificate and never a token, and a
    CA certificate exactly when the cluster entry carries CA data. *)
Theorem kubeconfig_context_shape (kconfig : KubeConfig) (c : Agent.kubeContext) :
  serverContextFromKubeconfig kconfig = Agent.Returns c →
  CurrentContext kconfig ∈ GetContextNames kconfig
  ∧ ∃ user cluster cert,
      FindContext kconfig (CurrentContext kconfig) = inl (user, cluster)
      ∧ Agent.username c = Agent.user_Name user
      ∧ Agent.serverURL c = Agent.Server cluster
      ∧ Agent.insecure c = Agent.InsecureSkipTLSVerify cluster
      ∧ Agent.token c = ""
      ∧ Agent.clientCert c = Some cert
      ∧ (Agent.serverCA c = None ↔ Agent.CertificateAuthorityData cluster = "").
Proof.
  unfold Agent.serverContextFromKubeconfig. rewrite context_loop_finds.
  case_decide as Hin; [|done].
  intros Hc. split; [done|]. by apply context_of_returns.
Qed.

(** X20. [serverContextFromKubeconfig] ends the process with "Default
    context not found in kubeconfig" exactly when the current context
    is not among the context names; when the name is listed more than
    once, the entry is looked up once, for the first occurrence. *)
Theorem missing_current_context_is_fatal (kconfig : KubeConfig) :
  (serverContextFromKubeconfig kconfig
     = Agent.Fatalf "Default context not found in kubeconfig"
   ↔ CurrentContext kconfig ∉ GetContextNames kconfig)
  ∧ (CurrentContext kconfig ∈ GetContextNames kconfig →
     serverContextFromKubeconfig kconfig
     = context_of kconfig (CurrentContext kconfig)).
Proof.
  unfold Agent.serverContextFromKubeconfig. rewrite context_loop_finds.
  case_decide as Hin.
  - split; [|done]. split; [|done].
    intros Hf. by apply context_of_other_fatal in Hf.
  - split; [done|]. done.
Qed.

Lemma loadServiceAccount_returns
    (sa : option Agent.kubeContext) (err : option Agent.error) :
  loadServiceAccount = Return (sa, err) →
  (sa = None ∧ is_Some err)
  ∨ (err = None
     ∧ ∃ c, sa = Some c
            ∧ Agent.clientCert c = None
            ∧ Agent.username c = "ServiceAccount"
            ∧ is_Some (Agent.serverCA c)
            ∧ Agent.insecure c = true
            ∧ ∃ token_bytes, files !! Agent.token_path = Some token_bytes
                 ∧ Agent.token c = String.string_of_list_byte token_bytes).
Proof.
  unfold Agent.loadServiceAccount, Agent.ReadFile.
  destruct (files !! Agent.token_path) as [token_bytes|];
    [|by intros [= <- <-]; left].
  destruct (files !! Agent.ca_path) as [ca_bytes|];
    [|by intros [= <- <-]; left].
  destruct (pem_Decode ca_bytes) as [der|]; [|done].
  destruct (x509_ParseCertificate der) as [cert|];
    [|by intros [= <- <-]; left].
  case_decide; [by intros [= <- <-]; left|].
  case_decide; [by intros [= <- <-]; left|].
  intros [= <- <-]. right. split; [done|]. eexists. split; [done|]. simpl.
  do 4 (split; [done|]). by exists token_bytes.
Qed.

Lemma loadKubernetesSecurity_returns
    (path : string) (c : option Agent.kubeContext) :
  loadKubernetesSecurity path = Agent.Returns c →
  ∃ c', c = Some c'
        ∧ ((is_Some (files !! path)
            ∧ is_Some (Agent.clientCert c') ∧ Agent.token c' = "")
           ∨ (files !! path = None
              ∧ Agent.clientCert c' = None
              ∧ Agent.username c' = "ServiceAccount"
              ∧ is_Some (Agent.serverCA c')
              ∧ Agent.insecure c' = true)).
Proof.
  unfold Agent.loadKubernetesSecurity.
  destruct (files !! path) as [yaml|] eqn:Hfile.
  - destruct (ReadKubeConfig yaml) as [kconfig|]; [|done].
    destruct (serverContextFromKubeconfig kconfig) as [c0| |] eqn:Hc0; [|done..].
    intros [= <-]. exists c0. split; [done|]. left.
    unfold Agent.serverContextFromKubeconfig in Hc0.
    rewrite context_loop_finds in Hc0. case_decide; [|done].
    apply context_of_returns in Hc0
      as (user & cluster & cert & _ & _ & _ & _ & Htoken & Hcert & _).
    split; [done|]. split; [by rewrite Hcert|done].
  - destruct loadServiceAccount as [[sa [err|]]|] eqn:Hsa; [done| |done].
    intros [= <-].
    destruct (loadServiceAccount_returns sa None Hsa)
      as [[_ [? ?]]|(_ & c' & -> & Hcert & Huser & Hca & Hins & _)]; [done|].
    exists c'. split; [done|]. by right.
Qed.

(** X21. [loadKubernetesSecurity] never returns a nil context, and the
    context it returns has one kind of credential: from a kubeconfig
    file that can be opened, a client certificate and no token; only
    when that file cannot be opened, the service account's token, CA
    certificate and [insecure = true], without client certificate. *)
Theorem loaded_context_has_one_credential
    (path : string) (c : option Agent.kubeContext) :
  loadKubernetesSecurity path = Agent.Returns c →
  ∃ c', c = Some c'
        ∧ ((is_Some (files !! path)
            ∧ is_Some (Agent.clientCert c') ∧ Agent.token c' = "")
           ∨ (files !! path = None
              ∧ Agent.clientCert c' = None
              ∧ Agent.username c' = "ServiceAccount"
              ∧ is_Some (Agent.serverCA c')
              ∧ Agent.insecure c' = true)).
Proof. apply loadKubernetesSecurity_returns. Qed.

(** X22. [MakeKubernetesEndpoint] of package serviceconfig returns the
    YAML error, a nil endpoint and [false] when its configuration does
    not parse, without loading anything. When it returns an endpoint,
    the flag is [true], the error is nil, the endpoint's kubeconfig
    path is the configured one or "/app/config/kubeconfig.yaml" when
    none is configured, and its context is the one loaded from that
    path. *)
Theorem MakeKubernetesEndpoint_configures (name : string) (configBytes : list byte) :
  (∀ e, yaml_Unmarshal configBytes = inr e →
        MakeKubernetesEndpoint name configBytes
        = Agent.Returns (None, false, Some e))
  ∧ (∀ cfg ke configured err,
       yaml_Unmarshal configBytes = inl cfg →
       MakeKubernetesEndpoint name configBytes
       = Agent.Returns (ke, configured, err) →
       ∃ k, ke = Some k ∧ configured = true ∧ err = None
            ∧ Serviceconfig.KubeConfig (Serviceconfig.config k)
              = (if decide (Serviceconfig.KubeConfig cfg = "")
                 then Serviceconfig.default_kubeconfig
                 else Serviceconfig.KubeConfig cfg)
            ∧ Serviceconfig.KubeConfig (Serviceconfig.config k) ≠ ""
            ∧ loadKubernetesSecurity
                (Serviceconfig.KubeConfig (Serviceconfig.config k))
              = Agent.Returns (Some (Serviceconfig.f k))).
Proof.
  unfold Serviceconfig.MakeKubernetesEndpoint. split.
  - by intros e ->.
  - intros cfg ke configured err ->.
    unfold Serviceconfig.loadKubernetesSecurity.
    destruct (loadKubernetesSecurity _) as [[c|]| |] eqn:Hload; [|done..].
    intros [= <- <- <-]. eexists. split; [done|]. split; [done|]. split; [done|].
    simpl. split; [by case_decide|]. split; [by case_decide|]. done.
Qed.

(** X23. How loaded credentials reach the API server. With a context
    from a kubeconfig file the HTTP client presents the client
    certificate and the outbound request carries exactly the tunnelled
    headers, no bearer token. With a service-account context the client
    presents no certificate and skips server verification, and a
    non-empty token is sent as the only [Authorization] value. *)
Theorem credentials_reach_the_server
    (CanonicalMIMEHeaderKey : string → string)
    (path : string) (c : Agent.kubeContext)
    (req : OpenHTTPTunnelRequest) (httpRequest : HTTP.Request) :
  loadKubernetesSecurity path = Agent.Returns (Some c) →
  let tls := HTTP.TLSClientConfig (HTTP.Transport_ (Agent.make_client c)) in
  let sent := Agent.outbound CanonicalMIMEHeaderKey c req httpRequest in
  (is_Some (files !! path) →
   (∃ cert, Agent.clientCert c = Some cert ∧ TLS.Certificates tls = [cert])
   ∧ HTTP.RequestHeader sent
     = Agent.add_headers CanonicalMIMEHeaderKey (req_headers req)
         (HTTP.RequestHeader httpRequest))
  ∧ (files !! path = None →
     TLS.Certificates tls = []
     ∧ TLS.InsecureSkipVerify tls = true
     ∧ (Agent.token c ≠ "" →
        HTTP.RequestHeader sent !! CanonicalMIMEHeaderKey "Authorization"
        = Some ["Bearer " +:+ Agent.token c])).
Proof.
  intros Hload tls sent.
  destruct (loadKubernetesSecurity_returns path (Some c) Hload)
    as (c' & [= <-] & Hkind).
  split.
  - intros [yaml Hfile].
    destruct Hkind as [(_ & [cert Hcert] & Htoken)|(Hnone & _)]; [|congruence].
    unfold tls, sent, Agent.outbound, Agent.make_client. simpl.
    rewrite Hcert, Htoken. simpl. split; [by exists cert|done].
  - intros Hnone.
    destruct Hkind as [([yaml Hfile] & _)|(_ & Hcert & _ & _ & Hins)];
      [congruence|].
    unfold tls, sent, Agent.outbound, Agent.make_client. simpl.
    rewrite Hcert, Hins. split; [done|]. split; [done|].
    intros Htoken. rewrite decide_True.
    + unfold HTTP.Header_Set. by rewrite lookup_insert_eq.
    + destruct (Agent.token c); [done|simpl; lia].
Qed.

End loading.

(** Witness for X18: the sample pod loads a context and no error. *)
Lemma loadServiceAccount_outcomes_witness :
  (is_Some (Some Samples.pod_context) ∧ (None : option Agent.error) = None)
  ∨ (Some Samples.pod_context = None ∧ is_Some (None : option Agent.error)).
Proof.
  destruct (loadServiceAccount_outcomes Samples.pem_plain Samples.parse_plain
              Samples.pod_files Samples.pod_environ) as (_ & _ & Hexcl).
  apply Hexcl. vm_compute. reflexivity.
Defined.

Example loadServiceAccount_without_PEM_panics :
  Agent.loadServiceAccount (λ _, None) Samples.parse_plain
    Samples.pod_files Samples.pod_environ
  = Panic "nil pointer dereference".
Proof. vm_compute. reflexivity. Qed.

Example kubeconfig_is_preferred :
  Agent.loadKubernetesSecurity Samples.toy_kubeconfig Samples.toy_current
    Samples.toy_names Samples.toy_find Samples.toy_read Samples.toy_base64
    Samples.toy_keypair Samples.pem_plain Samples.parse_plain
    (Samples.kubeconfig_files ∪ Samples.pod_files) Samples.pod_environ
    Serviceconfig.default_kubeconfig
  = Agent.Returns (Some Samples.toy_context)
  ∧ Agent.loadKubernetesSecurity Samples.toy_kubeconfig Samples.toy_current
      Samples.toy_names Samples.toy_find Samples.toy_read Samples.toy_base64
      Samples.toy_keypair Samples.pem_plain Samples.parse_plain
      Samples.pod_files Samples.pod_environ
      Serviceconfig.default_kubeconfig
    = Agent.Returns (Some Samples.pod_context)
  ∧ Agent.loadKubernetesSecurity Samples.toy_kubeconfig Samples.toy_current
      Samples.toy_names Samples.toy_find Samples.toy_read Samples.toy_base64
      Samples.toy_keypair Samples.pem_plain Samples.parse_plain
      ∅ Samples.pod_environ
      Serviceconfig.default_kubeconfig
    = Agent.Fatalf "No kubeconfig and no Kubernetes account found: %v".
Proof. repeat split; vm_compute; reflexivity. Qed.

(** Witness for X19: the sample kubeconfig. *)
Lemma kubeconfig_context_shape_witness :
  Samples.toy_current Samples.toy_config ∈ Samples.toy_names Samples.toy_config
  ∧ ∃ user cluster cert,
      Samples.toy_find Samples.toy_config (Samples.toy_current Samples.toy_config)
        = inl (user, cluster)
      ∧ Agent.username Samples.toy_context = Agent.user_Name user
      ∧ Agent.serverURL Samples.toy_context = Agent.Server cluster
      ∧ Agent.insecure Samples.toy_context = Agent.InsecureSkipTLSVerify cluster
      ∧ Agent.token Samples.toy_context = ""
      ∧ Agent.clientCert Samples.toy_context = Some cert
      ∧ (Agent.serverCA Samples.toy_context = None
         ↔ Agent.CertificateAuthorityData cluster = "").
Proof.
  apply (kubeconfig_context_shape Samples.toy_kubeconfig Samples.toy_current
           Samples.toy_names Samples.toy_find Samples.toy_base64
           Samples.toy_keypair Samples.pem_plain Samples.parse_plain
           Samples.toy_config Samples.toy_context).
  vm_compute. reflexivity.
Defined.

(** Witness for X20: a kubeconfig whose current context is not listed. *)
Lemma missing_current_context_is_fatal_witness :
  Agent.serverContextFromKubeconfig Samples.toy_kubeconfig Samples.toy_current
    Samples.toy_names Samples.toy_find Samples.toy_base64 Samples.toy_keypair
    Samples.pem_plain Samples.parse_plain
    {| Samples.toy_current := "prod"; Samples.toy_names := ["dev"] |}
  = Agent.Fatalf "Default context not found in kubeconfig".
Proof.
  apply (missing_current_context_is_fatal Samples.toy_kubeconfig
           Samples.toy_current Samples.toy_names Samples.toy_find
           Samples.toy_base64 Samples.toy_keypair Samples.pem_plain
           Samples.parse_plain
           {| Samples.toy_current := "prod"; Samples.toy_names := ["dev"] |}).
  simpl. intros Hin. apply list_elem_of_singleton in Hin. discriminate Hin.
Defined.

(** Witness for X21: no kubeconfig file, a mounted service account. *)
Lemma loaded_context_has_one_credential_witness :
  ∃ c', Some Samples.pod_context = Some c'
        ∧ ((is_Some (Samples.pod_files !! Serviceconfig.default_kubeconfig)
            ∧ is_Some (Agent.clientCert c') ∧ Agent.token c' = "")
           ∨ (Samples.pod_files !! Serviceconfig.default_kubeconfig = None
              ∧ Agent.clientCert c' = None
              ∧ Agent.username c' = "ServiceAccount"
              ∧ is_Some (Agent.serverCA c')
              ∧ Agent.insecure c' = true)).
Proof.
  apply (loaded_context_has_one_credential Samples.toy_kubeconfig
           Samples.toy_current Samples.toy_names Samples.toy_find
           Samples.toy_read Samples.toy_base64 Samples.toy_keypair
           Samples.pem_plain Samples.parse_plain
           Samples.pod_files Samples.pod_environ
           Serviceconfig.default_kubeconfig (Some Samples.pod_context)).
  vm_compute. reflexivity.
Defined.

(** Witness for X22: no path configured, the default file present. *)
Lemma MakeKubernetesEndpoint_configures_witness :
  ∃ k, Some {| Serviceconfig.f := Samples.toy_context;
               Serviceconfig.config :=
                 {| Serviceconfig.KubeConfig := Serviceconfig.default_kubeconfig |} |}
       = Some k
       ∧ true = true ∧ (None : option string) = None
       ∧ Serviceconfig.KubeConfig (Serviceconfig.config k)
         = (if decide (Serviceconfig.KubeConfig
                         {| Serviceconfig.KubeConfig := "" |} = "")
            then Serviceconfig.default_kubeconfig
            else Serviceconfig.KubeConfig {| Serviceconfig.KubeConfig := "" |})
       ∧ Serviceconfig.KubeConfig (Serviceconfig.config k) ≠ ""
       ∧ Agent.loadKubernetesSecurity Samples.toy_kubeconfig Samples.toy_current
           Samples.toy_names Samples.toy_find Samples.toy_read Samples.toy_base64
           Samples.toy_keypair Samples.pem_plain Samples.parse_plain
           Samples.kubeconfig_files ∅
           (Serviceconfig.KubeConfig (Serviceconfig.config k))
         = Agent.Returns (Some (Serviceconfig.f k)).
Proof.
  destruct (MakeKubernetesEndpoint_configures Samples.toy_kubeconfig
              Samples.toy_current Samples.toy_names Samples.toy_find
              Samples.toy_read Samples.toy_base64 Samples.toy_keypair
              Samples.pem_plain Samples.parse_plain Samples.toy_yaml
              Samples.kubeconfig_files ∅ "prod" []) as [_ Hmake].
  apply (Hmake {| Serviceconfig.KubeConfig := "" |}).
  - reflexivity.
  - vm_compute. reflexivity.
Defined.

(** Witness for X23: the sample pod's token is sent as bearer token. *)
Lemma credentials_reach_the_server_witness :
  TLS.Certificates
    (HTTP.TLSClientConfig (HTTP.Transport_ (Agent.make_client Samples.pod_context)))
  = []
  ∧ TLS.InsecureSkipVerify
      (HTTP.TLSClientConfig (HTTP.Transport_ (Agent.make_client Samples.pod_context)))
    = true
  ∧ (Agent.token Samples.pod_context ≠ "" →
     HTTP.RequestHeader
       (Agent.outbound Samples.canonical Samples.pod_context Samples.request_0
          {| HTTP.Method := "GET"; HTTP.URL := "https://10.0.0.1:443/v1/pods";
             HTTP.RequestHeader := ∅; HTTP.RequestBody := [] |})
       !! Samples.canonical "Authorization"
     = Some ["Bearer " +:+ Agent.token Samples.pod_context]).
Proof.
  apply (credentials_reach_the_server Samples.toy_kubeconfig
           Samples.toy_current Samples.toy_names Samples.toy_find
           Samples.toy_read Samples.toy_base64 Samples.toy_keypair
           Samples.pem_plain Samples.parse_plain
           Samples.pod_files Samples.pod_environ
           Samples.canonical Serviceconfig.default_kubeconfig
           Samples.pod_context Samples.request_0
           {| HTTP.Method := "GET"; HTTP.URL := "https://10.0.0.1:443/v1/pods";
              HTTP.RequestHeader := ∅; HTTP.RequestBody := [] |}).
  - vm_compute. reflexivity.
  - vm_compute. reflexivity.
Defined.

End CredentialFacts.

(* ================================================================== *)
(** * More facts about the identity binding *)
(* ================================================================== *)
Module IdentityMoreFacts.
Import Controller.

(** X24. Whatever the OU parser does: without a peer, without TLS
    credentials, or without a leaf in the first verified chain, the
    extraction returns the empty name and an [Unauthenticated] status;
    whenever it returns an error the name is empty; and the result
    depends on the leaf of the first verified chain only. *)
Theorem extraction_needs_a_verified_leaf
    (json_Unmarshal : string → CertificateName + string) (ctx : Context) :
  ((peer ctx = None ∨ peer ctx = Some OtherAuthInfo
    ∨ peer ctx = Some (TLSInfo [])
    ∨ ∃ chains, peer ctx = Some (TLSInfo ([] :: chains))) →
   ∃ msg, getAgentNameFromContext json_Unmarshal ctx
          = ("", Some (status_Error codes_Unauthenticated msg)))
  ∧ ((getAgentNameFromContext json_Unmarshal ctx).2 ≠ None →
     (getAgentNameFromContext json_Unmarshal ctx).1 = "")
  ∧ (∀ leaf chain chains,
       peer ctx = Some (TLSInfo ((leaf :: chain) :: chains)) →
       getAgentNameFromContext json_Unmarshal ctx
       = getAgentNameFromCertificate json_Unmarshal leaf).
Proof.
  unfold getAgentNameFromContext. split; [|split].
  - intros [->|[->|[->|[chains ->]]]]; by eexists.
  - destruct (peer ctx) as [[[|[|leaf chain] chains]|]|]; try done.
    unfold getAgentNameFromCertificate.
    destruct (GetCertificateNameFromCert json_Unmarshal leaf); [|done].
    by case_bool_decide.
  - by intros leaf chain chains ->.
Qed.

(** Witness for X24: TLS credentials without a verified chain. *)
Lemma extraction_needs_a_verified_leaf_witness :
  ∃ msg, getAgentNameFromContext Samples.unmarshal {| peer := Some (TLSInfo []) |}
         = ("", Some (status_Error codes_Unauthenticated msg)).
Proof.
  apply (extraction_needs_a_verified_leaf Samples.unmarshal
           {| peer := Some (TLSInfo []) |}).
  right. right. left. reflexivity.
Defined.

End IdentityMoreFacts.
